(** * Mousygons: a shallow embedding of [src/index.ts]

    The TypeScript source has two classes: [Point], a fading square, and
    [Mousygons], the controller that keeps at most six points alive on a
    64x64 canvas that follows the mouse.

    Every [number] of the source is an IEEE 754 binary64 value.  The code
    is embedded once, over an interface [Number] of the arithmetic the
    source uses, and that interface has two instances:

    - [binary64]: Rocq's primitive floats, which are the numbers the
      program really computes with; concrete runs are evaluated here;
    - [exact]: the real numbers, the arithmetic the specification speaks
      in ("real-valued", "uniform real"); statements that quantify over
      all numbers and depend on arithmetic are proved here.

    [Math.random()] is an input of the program: the calls a run makes are
    answered, in order, from a list of numbers (the tape).  A run that
    needs more random numbers than the tape holds returns [None]. *)

From Stdlib Require Import Floats.
From Stdlib Require Import ZArith List Bool Lia Ascii String Wellfounded.
From Stdlib Require Import Arith.Wf_nat.
From Stdlib Require Import QArith Qround.
From Stdlib Require Import Reals Lra.
Import ListNotations.

Set Implicit Arguments.

(** ** The arithmetic of the source *)

Declare Scope js_scope.
Delimit Scope js_scope with js.

Class Number (num : Type) : Type := {
  of_Z : Z -> num;                (* an integer literal *)
  add : num -> num -> num;        (* a + b *)
  sub : num -> num -> num;        (* a - b *)
  mul : num -> num -> num;        (* a * b *)
  div : num -> num -> num;        (* a / b *)
  Math_sqrt : num -> num;
  Math_floor : num -> num;
  le : num -> num -> bool         (* a <= b *)
}.

Notation "a + b" := (add a b) : js_scope.
Notation "a - b" := (sub a b) : js_scope.
Notation "a * b" := (mul a b) : js_scope.
Notation "a / b" := (div a b) : js_scope.
Notation "a <= b" := (le a b) : js_scope.
(* IEEE 754: [a >= b] is [b <= a], also when one of them is NaN. *)
Notation "a >= b" := (le b a) : js_scope.

(** A decimal literal [m / 10^k] of the source, such as [0.25]: the
    quotient of two exactly represented integers is correctly rounded, so
    in binary64 this is the number the literal denotes. *)
Definition decimal {num} `{Number num} (m : Z) (k : nat) : num :=
  (of_Z m / of_Z (10 ^ Z.of_nat k))%js.

(** *** binary64 *)

Module Binary64.

(** Exact for [|z| < 2^53]. *)
Definition float_of_Z (z : Z) : float :=
  match z with
  | Z0 => PrimFloat.zero
  | Zpos _ => PrimFloat.of_uint63 (Uint63.of_Z z)
  | Zneg p => PrimFloat.opp (PrimFloat.of_uint63 (Uint63.of_Z (Zpos p)))
  end.

(** [Math.floor]: NaN, the infinities and the zeros are returned as they
    are; a finite [m * 2^e] with [e >= 0] is an integer already; below
    that the magnitude is less than [2^53] and the floor is exact. *)
Definition floor (x : float) : float :=
  match FloatOps.Prim2SF x with
  | S754_finite s m e =>
      if (0 <=? e)%Z then x
      else float_of_Z ((if s then Zneg m else Zpos m) / 2 ^ (- e))%Z
  | _ => x
  end.


End Binary64.

#[export] Instance binary64 : Number float := {
  of_Z := Binary64.float_of_Z;
  add := PrimFloat.add;
  sub := PrimFloat.sub;
  mul := PrimFloat.mul;
  div := PrimFloat.div;
  Math_sqrt := PrimFloat.sqrt;
  Math_floor := Binary64.floor;
  le := PrimFloat.leb
}.

(** *** Exact real arithmetic *)

Module Exact.

Definition leb (a b : R) : bool := if Rle_dec a b then true else false.

End Exact.

#[export] Instance exact : Number R := {
  of_Z := IZR;
  add := Rplus;
  sub := Rminus;
  mul := Rmult;
  div := Rdiv;
  Math_sqrt := R_sqrt.sqrt;
  Math_floor := fun x => IZR (Zfloor x);
  le := Exact.leb
}.

(** ** class Point *)

Module Point.
Section WithNumber.
Context {num : Type} {N : Number num}.

Record t : Type := Build {
  x : num;
  y : num;
  dimensions : num;
  alpha : num;
  alphaSpeed : num;
  satisfied : bool
}.

Definition ALPHA_THRESHOLD : num := of_Z 255.

(* constructor(x, y, dimensions, alphaSpeed) *)
Definition new (x y dimensions alphaSpeed : num) : t :=
  {| x := x; y := y; dimensions := dimensions;
     alpha := of_Z 0; alphaSpeed := alphaSpeed; satisfied := false |}.

Definition getX (this : t) : num := x this.
Definition getY (this : t) : num := y this.
Definition getDimensions (this : t) : num := dimensions this.
Definition isSatisfied (this : t) : bool := satisfied this.
Definition getAlpha (this : t) : num := alpha this.

Definition distanceToCoords (this : t) (x' y' : num) : num :=
  let a := (x this - x')%js in
  let b := (y this - y')%js in
  Math_sqrt (a * a + b * b)%js.


(* update(): void *)
Definition update (this : t) : t :=
  if negb (satisfied this) then
    let alpha' := (alpha this + alphaSpeed this)%js in
    {| x := x this; y := y this; dimensions := dimensions this;
       alpha := alpha';
       alphaSpeed := alphaSpeed this;
       satisfied := if (alpha' >= ALPHA_THRESHOLD)%js then true else satisfied this |}
  else this.

(** [n] calls of [update()] in a row. *)
Definition updates (n : nat) (this : t) : t := Nat.iter n update this.

End WithNumber.
Arguments t num : clear implicits.
End Point.

(** ** Strings and the regular expression of [hexToRgb] *)

Module Hex.

Local Open Scope char_scope.
Local Open Scope string_scope.

(** The class [[a-f\d]] under the [i] flag: a character matches when its
    upper-case form is that of a member, and no character outside ASCII
    is folded onto an ASCII one. *)
Definition class_hex (c : ascii) : bool :=
  let n := nat_of_ascii c in
  ((48 <=? n) && (n <=? 57)          (* \d *)
   || (97 <=? n) && (n <=? 102)      (* a-f *)
   || (65 <=? n) && (n <=? 70))%nat  (* A-F, by the i flag *).

(** One capture group [([a-f\d]{2})] at the head of [s]: the captured
    text and what follows it. *)
Definition group (s : string) : option (string * string) :=
  match s with
  | String a (String b rest) =>
      if class_hex a && class_hex b then Some (String a (String b ""), rest)
      else None
  | _ => None
  end.

(** [([a-f\d]{2})([a-f\d]{2})([a-f\d]{2})$] at the head of [s]. *)
Definition groups (s : string) : option (string * string * string) :=
  match group s with
  | Some (g1, s1) =>
      match group s1 with
      | Some (g2, s2) =>
          match group s2 with
          | Some (g3, "") => Some (g1, g2, g3)
          | _ => None
          end
      | None => None
      end
  | None => None
  end.

(** [/^#?([a-f\d]{2})([a-f\d]{2})([a-f\d]{2})$/i.exec(hex)]: the greedy
    [#?] first takes a leading ['#']; when the rest then fails the
    matcher backtracks and takes none. *)
Definition exec (hex : string) : option (string * string * string) :=
  match hex with
  | String "#" rest =>
      match groups rest with
      | Some r => Some r
      | None => groups hex
      end
  | _ => groups hex
  end.

Definition digit (c : ascii) : Z :=
  let n := Z.of_nat (nat_of_ascii c) in
  if (n <=? 57)%Z then n - 48
  else if (n <=? 70)%Z then n - 55
  else n - 87.

(** [parseInt(s, 16)] on a string of hexadecimal digits. *)
Fixpoint parseInt16_from (acc : Z) (s : string) : Z :=
  match s with
  | EmptyString => acc
  | String c rest => parseInt16_from (acc * 16 + digit c) rest
  end.

Definition parseInt16 (s : string) : Z := parseInt16_from 0 s.

End Hex.

(** ** class Mousygons *)

Module Mousygons.
Section WithNumber.
Context {num : Type} {N : Number num}.

Local Abbreviation Point := (Point.t num).

Record MousePosition : Type := { x : num; y : num }.

Record RGB : Type := { r : num; g : num; b : num }.

(** The object passed to [css(...)]. *)
Record Css : Type := {
  left : num;
  top : num;
  position : string;
  pointerEvents : string
}.

(** The [<canvas>] element: the style last set on it, if any. *)
Record CanvasElement : Type := { style : option Css }.

(** The calls made on the 2D context. *)
Inductive DrawCall : Type :=
| clearRect (x y w h : num)
| fillStyle (rgb : RGB) (a : num)     (* "rgba(r,g,b,a )" *)
| beginPath
| fillRect (x y w h : num)
| stroke.

Record t : Type := {
  mousePosition : MousePosition;
  mouseCanvas : option CanvasElement;     (* null before createMouseCanvas *)
  canvas : list DrawCall;                 (* the calls so far, oldest first *)
  points : list Point
}.

Definition MAX_POINTS_ALIVE : nat := 6.
Definition MOUSE_WIDTH : num := of_Z 12.
Definition MOUSE_HEIGHT : num := of_Z 20.
Definition CANVAS_WIDTH : num := of_Z 64.
Definition CANVAS_HEIGHT : num := of_Z 64.
Definition FADE_MIN : num := decimal 25 2.     (* 0.25 *)
Definition FADE_MAX : num := decimal 175 2.    (* 1.75 *)

(** *** The static helpers; [rnd] is what [Math.random()] returned *)

Definition randomIntBetween (min max : num) (rnd : num) : num :=
  Math_floor (rnd * (max - min + of_Z 1) + min)%js.

Definition randomFloatBetween (min max : num) (rnd : num) : num :=
  (rnd * (max - min) + min)%js.

Definition hexToRgb (hex : string) : option RGB :=
  match Hex.exec hex with
  | Some (r1, r2, r3) =>
      Some {| r := of_Z (Hex.parseInt16 r1);
              g := of_Z (Hex.parseInt16 r2);
              b := of_Z (Hex.parseInt16 r3) |}
  | None => None
  end.

(** *** Mouse handling *)

Definition updateMouseCanvas (this : t) : t :=
  match mouseCanvas this with
  | Some _ =>
      {| mousePosition := mousePosition this;
         mouseCanvas := Some {| style := Some
           {| left := (x (mousePosition this) - (CANVAS_WIDTH / of_Z 2)
                       + (MOUSE_WIDTH / of_Z 2))%js;
              top := (y (mousePosition this) - (CANVAS_HEIGHT / of_Z 2)
                      + (MOUSE_HEIGHT / of_Z 2))%js;
              position := "absolute";
              pointerEvents := "none" |} |};
         canvas := canvas this;
         points := points this |}
  | None => this
  end.

(** [event] is [(pageX, pageY)]. *)
Definition mouseMovementHandler (this : t) (pageX pageY : num) : t :=
  updateMouseCanvas
    {| mousePosition := {| x := pageX; y := pageY |};
       mouseCanvas := mouseCanvas this;
       canvas := canvas this;
       points := points this |}.

(** *** The tick *)

Definition clearCanvas (this : t) : t :=
  {| mousePosition := mousePosition this;
     mouseCanvas := mouseCanvas this;
     canvas := canvas this ++ [clearRect (of_Z 0) (of_Z 0) CANVAS_WIDTH CANVAS_HEIGHT];
     points := points this |}.

(** The conflict test of [createPoint] for one existing point. *)
Definition conflicts (positionX positionY dimensions : num) (point : Point) : bool :=
  (Point.distanceToCoords point positionX positionY <= dimensions * of_Z 6)%js.

(** The three choices a pass of the loop of [createPoint] makes
    (its first three lines), each from one random number. *)
Definition chooseDimensions (rnd : num) : num :=
  randomIntBetween (of_Z 2) (of_Z 4) rnd.

Definition choosePositionX (dimensions rnd : num) : num :=
  randomIntBetween dimensions (CANVAS_WIDTH - (dimensions / of_Z 2))%js rnd.

Definition choosePositionY (dimensions rnd : num) : num :=
  randomIntBetween dimensions (CANVAS_HEIGHT - (dimensions / of_Z 2))%js rnd.

(** The [while(!foundPosition)] loop of [createPoint].  One pass takes
    three random numbers and a fourth when the position is accepted; the
    first branch is the exit of the loop, followed by the [return] of
    the last line. *)
Fixpoint createPoint_loop (points : list Point) (foundPosition : bool)
    (tape : list num) {struct tape} : option (Point * list num) :=
  if foundPosition then Some (Point.new (of_Z 0) (of_Z 0) (of_Z 0) (of_Z 0), tape)
  else
    match tape with
    | r1 :: r2 :: r3 :: tape3 =>
        let dimensions := chooseDimensions r1 in
        let positionX := choosePositionX dimensions r2 in
        let positionY := choosePositionY dimensions r3 in
        let positionConflict :=
          existsb (conflicts positionX positionY dimensions) points in
        let foundPosition := negb positionConflict in
        if foundPosition then
          match tape3 with
          | r4 :: tape4 =>
              Some (Point.new positionX positionY dimensions
                      (randomFloatBetween FADE_MIN FADE_MAX r4), tape4)
          | [] => None
          end
        else createPoint_loop points foundPosition tape3
    | _ => None
    end.

Definition createPoint (points : list Point) (tape : list num)
    : option (Point * list num) :=
  createPoint_loop points false tape.

(** The [while] of [fillPoints]; every pass appends one point, so
    [MAX_POINTS_ALIVE] passes are always enough
    (see [fillPoints_loop_fuel]). *)
Fixpoint fillPoints_loop (fuel : nat) (points : list Point) (tape : list num)
    : option (list Point * list num) :=
  if (List.length points <? MAX_POINTS_ALIVE)%nat then
    match fuel with
    | O => None
    | S fuel' =>
        match createPoint points tape with
        | Some (point, tape') => fillPoints_loop fuel' (points ++ [point]) tape'
        | None => None
        end
    end
  else Some (points, tape).

Definition fillPoints (points : list Point) (tape : list num)
    : option (list Point * list num) :=
  fillPoints_loop MAX_POINTS_ALIVE points tape.

(** [points[i] = v] and [points.splice(i, 1)]. *)
Definition assign (i : nat) (v : Point) (points : list Point) : list Point :=
  firstn i points ++ v :: skipn (S i) points.

Definition splice1 (i : nat) (points : list Point) : list Point :=
  firstn i points ++ skipn (S i) points.

(** The [for] of [updatePoints]: the index goes up on every pass and the
    array never grows, so [length points] passes are enough
    (see [updatePoints_loop_fuel]). *)
Fixpoint updatePoints_loop (fuel : nat) (i : nat) (points : list Point)
    : list Point :=
  match fuel with
  | O => points
  | S fuel' =>
      if (i <? List.length points)%nat then
        match nth_error points i with
        | Some point =>
            let point' := Point.update point in
            let points' := assign i point' points in
            if Point.isSatisfied point'
            then updatePoints_loop fuel' (S i) (splice1 i points')
            else updatePoints_loop fuel' (S i) points'
        | None => points
        end
      else points
  end.

Definition updatePoints (points : list Point) : list Point :=
  updatePoints_loop (List.length points) 0 points.

Definition drawPoint (point : Point) : list DrawCall :=
  match hexToRgb "#00bf9b" with
  | Some rgb =>
      [ fillStyle rgb (Point.getAlpha point / of_Z 255)%js;
        beginPath;
        fillRect (Point.getX point - (Point.getDimensions point / of_Z 2))%js
                 (Point.getY point - (Point.getDimensions point / of_Z 2))%js
                 (Point.getDimensions point) (Point.getDimensions point);
        stroke ]
  | None => []      (* the [!] on a null, which [hexToRgb] does not return here *)
  end.

Definition drawPoints (this : t) : t :=
  {| mousePosition := mousePosition this;
     mouseCanvas := mouseCanvas this;
     canvas := canvas this ++ flat_map drawPoint (points this);
     points := points this |}.

Definition with_points (this : t) (points' : list Point) : t :=
  {| mousePosition := mousePosition this;
     mouseCanvas := mouseCanvas this;
     canvas := canvas this;
     points := points' |}.

(** One tick: [update()]. *)
Definition update (this : t) (tape : list num) : option (t * list num) :=
  let this1 := clearCanvas this in
  match fillPoints (points this1) tape with
  | Some (filled, tape') =>
      let this2 := with_points this1 filled in
      let this3 := with_points this2 (updatePoints (points this2)) in
      Some (drawPoints this3, tape')
  | None => None
  end.

(** [n] ticks in a row. *)
Fixpoint ticks (n : nat) (this : t) (tape : list num) : option (t * list num) :=
  match n with
  | O => Some (this, tape)
  | S n' =>
      match update this tape with
      | Some (this', tape') => ticks n' this' tape'
      | None => None
      end
  end.

(** The state the constructor leaves: [createMouseCanvas] has made the
    element and [updateMouseCanvas] has placed it for the mouse at (0,0). *)
Definition initial : t :=
  updateMouseCanvas
    {| mousePosition := {| x := of_Z 0; y := of_Z 0 |};
       mouseCanvas := Some {| style := None |};
       canvas := [];
       points := [] |}.

End WithNumber.
Arguments t num : clear implicits.
Arguments RGB num : clear implicits.
Arguments Css num : clear implicits.
Arguments DrawCall num : clear implicits.
Arguments MousePosition num : clear implicits.
Arguments CanvasElement num : clear implicits.
End Mousygons.

(** ** The host: construction and the delivery of callbacks *)

Module Host.
Section WithNumber.
Context {num : Type} {N : Number num}.

(** The fields as the first lines of the constructor set them. *)
Definition blank : Mousygons.t num :=
  {| Mousygons.mousePosition := {| Mousygons.x := of_Z 0; Mousygons.y := of_Z 0 |};
     Mousygons.mouseCanvas := None;
     Mousygons.canvas := [];
     Mousygons.points := [] |}.

(** [createMouseCanvas()]: a new element, with no style yet, and its
    2D context, on which nothing has been drawn. *)
Definition createMouseCanvas (this : Mousygons.t num) : Mousygons.t num :=
  {| Mousygons.mousePosition := Mousygons.mousePosition this;
     Mousygons.mouseCanvas := Some {| Mousygons.style := None |};
     Mousygons.canvas := [];
     Mousygons.points := Mousygons.points this |}.

(* constructor() *)
Definition constructor : Mousygons.t num :=
  Mousygons.updateMouseCanvas (createMouseCanvas blank).

(** [interval] of the constructor, the period [start()] gives to
    [setInterval], in milliseconds. *)
Definition interval : num := (of_Z 1000 / of_Z 144)%js.

(** What the host delivers after construction: a tick of the timer set by
    [start()], or a mouse move with [pageX] and [pageY].  The callbacks
    run one after the other, each to its end. *)
Inductive Event : Type :=
| Tick
| MouseMove (pageX pageY : num).

Definition dispatch (event : Event) (this : Mousygons.t num) (tape : list num)
    : option (Mousygons.t num * list num) :=
  match event with
  | Tick => Mousygons.update this tape
  | MouseMove pageX pageY => Some (Mousygons.mouseMovementHandler this pageX pageY, tape)
  end.

Fixpoint run (events : list Event) (this : Mousygons.t num) (tape : list num)
    : option (Mousygons.t num * list num) :=
  match events with
  | [] => Some (this, tape)
  | event :: rest =>
      match dispatch event this tape with
      | Some (this', tape') => run rest this' tape'
      | None => None
      end
  end.

(** The number of ticks among the events, and the position of the last
    mouse move among them ([start] when there is none). *)
Fixpoint tick_count (events : list Event) : nat :=
  match events with
  | [] => O
  | Tick :: rest => S (tick_count rest)
  | MouseMove _ _ :: rest => tick_count rest
  end.

Fixpoint last_move (events : list Event) (start : Mousygons.MousePosition num)
    : Mousygons.MousePosition num :=
  match events with
  | [] => start
  | Tick :: rest => last_move rest start
  | MouseMove pageX pageY :: rest =>
      last_move rest {| Mousygons.x := pageX; Mousygons.y := pageY |}
  end.

(** The style [updateMouseCanvas] sets for a stored mouse position. *)
Definition style_for (position : Mousygons.MousePosition num) : Mousygons.Css num :=
  {| Mousygons.left := (Mousygons.x position - (Mousygons.CANVAS_WIDTH / of_Z 2)
                        + (Mousygons.MOUSE_WIDTH / of_Z 2))%js;
     Mousygons.top := (Mousygons.y position - (Mousygons.CANVAS_HEIGHT / of_Z 2)
                       + (Mousygons.MOUSE_HEIGHT / of_Z 2))%js;
     Mousygons.position := "absolute";
     Mousygons.pointerEvents := "none" |}.

(** What is on the canvas: the calls made since the last [clearRect]
    (the code only ever clears the whole canvas). *)
Definition after_call (shown : list (Mousygons.DrawCall num))
    (call : Mousygons.DrawCall num) : list (Mousygons.DrawCall num) :=
  match call with
  | Mousygons.clearRect _ _ _ _ => []
  | _ => shown ++ [call]
  end.

Definition shown (calls : list (Mousygons.DrawCall num))
    : list (Mousygons.DrawCall num) :=
  fold_left after_call calls [].

(** A call that draws, as opposed to one that clears. *)
Definition drawing (call : Mousygons.DrawCall num) : Prop :=
  match call with
  | Mousygons.clearRect _ _ _ _ => False
  | _ => True
  end.

(** What of a state the animation consists of: the points, the drawing
    calls and the random numbers left. *)
Definition animation (result : option (Mousygons.t num * list num))
    : option (list (Point.t num) * list (Mousygons.DrawCall num) * list num) :=
  match result with
  | Some (this, tape) => Some (Mousygons.points this, Mousygons.canvas this, tape)
  | None => None
  end.

End WithNumber.
Arguments Event num : clear implicits.
End Host.

(** ** The passes of the placement search, and what states look like *)

Module Search.
Section WithNumber.
Context {num : Type} {N : Number num}.

(** The conflict test of one pass of [createPoint], which takes the
    random numbers [r1], [r2] and [r3]. *)
Definition in_conflict (points : list (Point.t num)) (r1 r2 r3 : num) : bool :=
  let dimensions := Mousygons.chooseDimensions r1 in
  existsb (Mousygons.conflicts (Mousygons.choosePositionX dimensions r2)
             (Mousygons.choosePositionY dimensions r3) dimensions) points.

(** Random numbers that make up passes which are all rejected. *)
Inductive all_rejected (points : list (Point.t num)) : list num -> Prop :=
| no_pass : all_rejected points []
| rejected_pass (r1 r2 r3 : num) (rest : list num) :
    in_conflict points r1 r2 r3 = true ->
    all_rejected points rest ->
    all_rejected points (r1 :: r2 :: r3 :: rest).

(** The same three random numbers, [n] times over. *)
Fixpoint same_pass (n : nat) (r1 r2 r3 : num) : list num :=
  match n with
  | O => []
  | S n' => r1 :: r2 :: r3 :: same_pass n' r1 r2 r3
  end.

End WithNumber.

(** Nine positions for a point of size 2, 28 apart in each direction:
    the cell [(i, j)] stands for [(2 + 28 i, 2 + 28 j)]. *)
Definition cells : list (Z * Z) :=
  [ (0, 0); (0, 1); (0, 2); (1, 0); (1, 1); (1, 2); (2, 0); (2, 1); (2, 2) ]%Z.

Definition cell_coordinate (i : Z) : R := IZR (2 + 28 * i).

(** The random number for which a coordinate of a size-2 candidate is
    that of the cell. *)
Definition cell_random (i : Z) : R := (IZR (28 * i) / 62)%R.

Definition cell_blocked (points : list (Point.t R)) (cell : Z * Z) : bool :=
  existsb (Mousygons.conflicts (cell_coordinate (fst cell)) (cell_coordinate (snd cell)) 2%R)
    points.

(** *** States in exact arithmetic *)




(** Six points half way through their lives, as a state of the exact
    instance. *)
Definition six_points : Mousygons.t R :=
  {| Mousygons.mousePosition := {| Mousygons.x := 0%R; Mousygons.y := 0%R |};
     Mousygons.mouseCanvas := Some {| Mousygons.style := None |};
     Mousygons.canvas := [];
     Mousygons.points :=
       [ Point.Build 10 10 4 100 1 false; Point.Build 10 40 2 100 1 false;
         Point.Build 40 10 2 100 1 false; Point.Build 40 40 2 100 1 false;
         Point.Build 60 20 3 100 1 false; Point.Build 60 60 2 100 1 false ]%R |}.

End Search.

(** ** What the specification says, in its own words *)

Module Spec.
Section WithNumber.
Context {num : Type} {N : Number num}.

Local Abbreviation Point := (Point.t num).

(** "for each active point, call update(); any point whose satisfied
    flag is now true is removed": every point updated once, the
    satisfied ones filtered out. *)
Definition advance_and_evict (points : list Point) : list Point :=
  filter (fun p => negb (Point.satisfied p)) (map Point.update points).

(** "p.distanceTo(q.position) > size(p) x 6", as the code compares
    numbers: the test [distance <= size x 6] fails. *)
Definition apart_by_size_of_first (p q : Point) : Prop :=
  (Point.distanceToCoords p (Point.x q) (Point.y q)
     <= Point.dimensions p * of_Z 6)%js = false.

(** The same with the size of [q], the point tested against [p] when it
    was placed. *)
Definition apart_by_size_of_second (p q : Point) : Prop :=
  (Point.distanceToCoords p (Point.x q) (Point.y q)
     <= Point.dimensions q * of_Z 6)%js = false.

(** The centre of the 64x64 surface placed at [(left, top)]. *)
Definition center (css : Mousygons.Css num) : num * num :=
  ((Mousygons.left css + Mousygons.CANVAS_WIDTH / of_Z 2)%js,
   (Mousygons.top css + Mousygons.CANVAS_HEIGHT / of_Z 2)%js).

(** The placement last requested for the surface. *)
Definition placement (this : Mousygons.t num) : option (Mousygons.Css num) :=
  match Mousygons.mouseCanvas this with
  | Some element => Mousygons.style element
  | None => None
  end.

(** "half the overlay dimensions (64/2, 64/2) minus half the fixed cursor
    width/height (12/2, 20/2)". *)
Definition half_overlay_minus_half_cursor : num * num :=
  ((Mousygons.CANVAS_WIDTH / of_Z 2 - Mousygons.MOUSE_WIDTH / of_Z 2)%js,
   (Mousygons.CANVAS_HEIGHT / of_Z 2 - Mousygons.MOUSE_HEIGHT / of_Z 2)%js).

(** "the surface's center is offset from the pointer by" that much, for
    the pointer at [(x, y)]. *)
Definition claimed_center (x y : num) : num * num :=
  ((x + fst half_overlay_minus_half_cursor)%js,
   (y + snd half_overlay_minus_half_cursor)%js).

End WithNumber.

(** "one of {2, 3, 4}", for a binary64 number. *)
Definition one_of_2_3_4 (d : float) : bool :=
  ((d =? 2) || (d =? 3) || (d =? 4))%float.

(** "a strict 6-hex-digit pattern, optionally prefixed with '#'". *)
Definition hex_digit (c : ascii) : Prop :=
  In c (list_ascii_of_string "0123456789abcdefABCDEF").

Definition six_hex_digits (s : string) : Prop :=
  String.length s = 6%nat /\ Forall hex_digit (list_ascii_of_string s).

Definition strict_hex (s : string) : Prop :=
  six_hex_digits s \/ exists body, s = String "#" body /\ six_hex_digits body.

(** "a value of the underlying random source in [0, 1)", as a real and
    as a binary64 number. *)
Definition unit_interval (r : R) : Prop := (0 <= r < 1)%R.

Definition unit_interval64 (r : float) : bool := ((0 <=? r) && (r <? 1))%float.



End Spec.

(** ** Definitions the proofs use *)

Module Aux.
Section WithNumber.
Context {num : Type} {N : Number num}.

Local Abbreviation Point := (Point.t num).

(** What the loop computes, by recursion on the array: when the updated
    head is satisfied it is removed and the point behind it moves into
    its slot, which the index has already left. *)
Fixpoint sweep (points : list Point) : list Point :=
  match points with
  | [] => []
  | p :: rest =>
      if Point.isSatisfied (Point.update p) then
        match rest with
        | [] => []
        | q :: rest' => q :: sweep rest'
        end
      else Point.update p :: sweep rest
  end.

(** The choices of the accepted pass of [createPoint]: a point built by
    the [return] inside the loop from four random numbers, none of the
    existing points in conflict with it. *)
Definition accepted (points : list Point) (r1 r2 r3 r4 : num) (p : Point) : Prop :=
  let dimensions := Mousygons.chooseDimensions r1 in
  let positionX := Mousygons.choosePositionX dimensions r2 in
  let positionY := Mousygons.choosePositionY dimensions r3 in
  existsb (Mousygons.conflicts positionX positionY dimensions) points = false
  /\ p = Point.new positionX positionY dimensions
           (Mousygons.randomFloatBetween Mousygons.FADE_MIN Mousygons.FADE_MAX r4).

(** The pairs the conflict test of [createPoint] has passed: every point
    is apart from every earlier one by six times its own size. *)
Definition separated (points : list Point) : Prop :=
  ForallOrdPairs Spec.apart_by_size_of_second points.

End WithNumber.

(** The random numbers of a run whose first tick places six points, all
    with fade increment 1 (every fourth number is 0.5):
    (10,10) of size 4, then (10,23), (40,10), (40,40), (10,50), (60,60) of
    size 2. *)
Definition tape6 : list float :=
  [ 0.75; 0.109375; 0.109375; 0.5;
    0; 0.140625; 0.34375; 0.5;
    0; 0.625; 0.140625; 0.5;
    0; 0.625; 0.625; 0.5;
    0; 0.140625; 0.78125; 0.5;
    0; 0.9375; 0.9375; 0.5 ]%float.

(** The six points [fillPoints] places from [tape6]. *)
Definition placed6 : list (Point.t float) :=
  [ Point.new 10 10 4 1; Point.new 10 23 2 1; Point.new 40 10 2 1;
    Point.new 40 40 2 1; Point.new 10 50 2 1; Point.new 60 60 2 1 ]%float.

(** The largest binary64 number below 1: 1 - 2^-53 = 0.9999999999999999. *)
Definition below_one : float := 0x1.fffffffffffffp-1%float.

(** The string of six characters, and the number two hexadecimal digits
    stand for. *)
Definition six (a b c d e f : ascii) : string :=
  String a (String b (String c (String d (String e (String f EmptyString))))).

Definition byte_of (hi lo : ascii) : Z := 16 * Hex.digit hi + Hex.digit lo.

(** The upper-case form of a character and of a string. *)
Definition upper (c : ascii) : ascii :=
  let n := nat_of_ascii c in
  if ((97 <=? n) && (n <=? 122))%nat then ascii_of_nat (n - 32) else c.

Fixpoint upper_string (s : string) : string :=
  match s with
  | EmptyString => EmptyString
  | String c rest => String (upper c) (upper_string rest)
  end.

End Aux.

(** * Proofs *)

(** ** Comparisons of the exact instance *)

Module ExactFacts.

Lemma leb_true (a b : R) : Exact.leb a b = true <-> (a <= b)%R.
Proof.
  unfold Exact.leb. destruct (Rle_dec a b) as [Hle | Hnle].
  - now split.
  - split; [discriminate | intro Hab; now elim Hnle].
Qed.

Lemma leb_false (a b : R) : Exact.leb a b = false <-> (b < a)%R.
Proof.
  unfold Exact.leb. destruct (Rle_dec a b) as [Hle | Hnle].
  - split; [discriminate | lra].
  - split; [lra | reflexivity].
Qed.


(** In exact arithmetic the failed conflict test is the strict inequality
    of the distance and six times the size. *)
Lemma apart_by_size_of_second_exact (p q : Point.t R) :
  Spec.apart_by_size_of_second p q <->
  (Point.dimensions q * 6
   < R_sqrt.sqrt ((Point.x p - Point.x q) * (Point.x p - Point.x q)
                  + (Point.y p - Point.y q) * (Point.y p - Point.y q)))%R.
Proof. unfold Spec.apart_by_size_of_second. apply leb_false. Qed.

End ExactFacts.

(** ** Point.update *)

Module PointFacts.
Section WithNumber.
Context {num : Type} {N : Number num}.

Local Abbreviation Point := (Point.t num).

Lemma update_satisfied (p : Point) :
  Point.satisfied p = true -> Point.update p = p.
Proof. intro Hs. unfold Point.update. now rewrite Hs. Qed.


Lemma update_keeps_satisfied (p : Point) :
  Point.satisfied p = true -> Point.satisfied (Point.update p) = true.
Proof. intro Hs. now rewrite update_satisfied. Qed.



Lemma update_x (p : Point) : Point.x (Point.update p) = Point.x p.
Proof. unfold Point.update. now destruct (Point.satisfied p). Qed.

Lemma update_y (p : Point) : Point.y (Point.update p) = Point.y p.
Proof. unfold Point.update. now destruct (Point.satisfied p). Qed.

Lemma update_dimensions (p : Point) :
  Point.dimensions (Point.update p) = Point.dimensions p.
Proof. unfold Point.update. now destruct (Point.satisfied p). Qed.

Lemma update_alphaSpeed (p : Point) :
  Point.alphaSpeed (Point.update p) = Point.alphaSpeed p.
Proof. unfold Point.update. now destruct (Point.satisfied p). Qed.

End WithNumber.




End PointFacts.




(** ** Mousygons.updatePoints *)

Module UpdatePointsFacts.
Section WithNumber.
Context {num : Type} {N : Number num}.

Local Abbreviation Point := (Point.t num).

Lemma sweep_removed (p q : Point) (rest : list Point) :
  Point.isSatisfied (Point.update p) = true ->
  Aux.sweep (p :: q :: rest) = q :: Aux.sweep rest.
Proof. intro Hs. cbn [Aux.sweep]. now rewrite Hs. Qed.

Lemma sweep_removed_last (p : Point) :
  Point.isSatisfied (Point.update p) = true -> Aux.sweep [p] = [].
Proof. intro Hs. cbn [Aux.sweep]. now rewrite Hs. Qed.

Lemma sweep_kept (p : Point) (rest : list Point) :
  Point.isSatisfied (Point.update p) = false ->
  Aux.sweep (p :: rest) = Point.update p :: Aux.sweep rest.
Proof. intro Hs. cbn [Aux.sweep]. now rewrite Hs. Qed.

Lemma loop_past_end (fuel i : nat) (points : list Point) :
  (List.length points <= i)%nat ->
  Mousygons.updatePoints_loop fuel i points = points.
Proof.
  intro Hi. destruct fuel as [| fuel]; simpl; [reflexivity |].
  destruct (Nat.ltb_spec i (List.length points)); [lia | reflexivity].
Qed.

Lemma firstn_prefix (pre rest : list Point) :
  firstn (List.length pre) (pre ++ rest) = pre.
Proof. induction pre as [| a pre IH]; simpl; [reflexivity | now rewrite IH]. Qed.

Lemma skipn_past (pre rest : list Point) (p : Point) :
  skipn (S (List.length pre)) (pre ++ p :: rest) = rest.
Proof. induction pre as [| a pre IH]; [reflexivity | exact IH]. Qed.

Lemma assign_middle (pre rest : list Point) (p v : Point) :
  Mousygons.assign (List.length pre) v (pre ++ p :: rest) = pre ++ v :: rest.
Proof. unfold Mousygons.assign. now rewrite firstn_prefix, skipn_past. Qed.

Lemma splice1_middle (pre rest : list Point) (p : Point) :
  Mousygons.splice1 (List.length pre) (pre ++ p :: rest) = pre ++ rest.
Proof. unfold Mousygons.splice1. now rewrite firstn_prefix, skipn_past. Qed.

Lemma loop_sweep (fuel : nat) :
  forall pre rest : list Point,
    (List.length rest <= fuel)%nat ->
    Mousygons.updatePoints_loop fuel (List.length pre) (pre ++ rest)
    = pre ++ Aux.sweep rest.
Proof.
  induction fuel as [| fuel IH]; intros pre rest Hfuel.
  - destruct rest; [reflexivity | simpl in Hfuel; lia].
  - destruct rest as [| p rest].
    + rewrite loop_past_end; [reflexivity | rewrite app_nil_r; lia].
    + simpl in Hfuel.
      cbn [Mousygons.updatePoints_loop Aux.sweep].
      assert ((List.length pre <? List.length (pre ++ p :: rest))%nat = true) as ->
        by (apply Nat.ltb_lt; rewrite length_app; simpl; lia).
      rewrite nth_error_app2, Nat.sub_diag by lia.
      cbn [nth_error].
      rewrite assign_middle.
      destruct (Point.isSatisfied (Point.update p)).
      * rewrite splice1_middle.
        destruct rest as [| q rest].
        -- rewrite loop_past_end; [reflexivity | rewrite app_nil_r; lia].
        -- replace (pre ++ q :: rest) with ((pre ++ [q]) ++ rest)
             by (now rewrite <- app_assoc).
           replace (S (List.length pre)) with (List.length (pre ++ [q]))
             by (rewrite length_app; simpl; lia).
           rewrite IH by (simpl in Hfuel; lia).
           now rewrite <- app_assoc.
      * replace (pre ++ Point.update p :: rest)
          with ((pre ++ [Point.update p]) ++ rest)
          by (now rewrite <- app_assoc).
        replace (S (List.length pre)) with (List.length (pre ++ [Point.update p]))
          by (rewrite length_app; simpl; lia).
        rewrite IH by lia.
        now rewrite <- app_assoc.
Qed.

(** The fuel of [updatePoints] is enough: more passes change nothing. *)
Lemma updatePoints_loop_fuel (fuel : nat) (points : list Point) :
  (List.length points <= fuel)%nat ->
  Mousygons.updatePoints_loop fuel 0 points = Mousygons.updatePoints points.
Proof.
  intro Hfuel. unfold Mousygons.updatePoints.
  transitivity (Aux.sweep points).
  - exact (@loop_sweep fuel [] points Hfuel).
  - symmetry. exact (@loop_sweep _ [] points (Nat.le_refl _)).
Qed.

Lemma updatePoints_sweep (points : list Point) :
  Mousygons.updatePoints points = Aux.sweep points.
Proof.
  unfold Mousygons.updatePoints.
  exact (@loop_sweep _ [] points (Nat.le_refl _)).
Qed.

(** The point behind a removed one is kept as it was: [update()] is not
    called on it in this pass. *)
Lemma updatePoints_skips (p q : Point) (rest : list Point) :
  Point.isSatisfied (Point.update p) = true ->
  Mousygons.updatePoints (p :: q :: rest) = q :: Mousygons.updatePoints rest.
Proof.
  intro Hs. rewrite !updatePoints_sweep. simpl. now rewrite Hs.
Qed.

Lemma sweep_length (points : list Point) :
  (List.length (Aux.sweep points) <= List.length points)%nat.
Proof.
  induction points as [points IH] using (well_founded_induction
    (wf_inverse_image _ _ _ (@List.length Point) lt_wf)).
  destruct points as [| p [| q rest]]; simpl.
  - lia.
  - destruct (Point.isSatisfied (Point.update p)); simpl; lia.
  - destruct (Point.isSatisfied (Point.update p)).
    + specialize (IH rest). simpl in *. specialize (IH ltac:(lia)). lia.
    + specialize (IH (q :: rest)). simpl in *. specialize (IH ltac:(lia)). lia.
Qed.

Lemma updatePoints_length (points : list Point) :
  (List.length (Mousygons.updatePoints points) <= List.length points)%nat.
Proof. rewrite updatePoints_sweep. apply sweep_length. Qed.

End WithNumber.
End UpdatePointsFacts.

(** ** Mousygons.createPoint and Mousygons.fillPoints *)

Module FillFacts.
Section WithNumber.
Context {num : Type} {N : Number num}.

Local Abbreviation Point := (Point.t num).

(** Induction on the length of the tape: a pass of [createPoint] takes
    three numbers at once. *)
Lemma tape_ind (P : list num -> Prop) :
  (forall tape, (forall shorter, (List.length shorter < List.length tape)%nat -> P shorter)
                -> P tape) ->
  forall tape, P tape.
Proof.
  intros Hstep tape.
  induction tape as [tape IH] using (well_founded_induction
    (wf_inverse_image _ _ _ (@List.length num) lt_wf)).
  apply Hstep. exact IH.
Qed.

(** Whatever [createPoint] returns was built by the [return] inside the
    loop, from four numbers of the tape that follow the rejected passes. *)
Lemma createPoint_loop_accepts (points : list Point) :
  forall (tape : list num) (p : Point) (tape' : list num),
    Mousygons.createPoint_loop points false tape = Some (p, tape') ->
    exists rejected r1 r2 r3 r4,
      tape = rejected ++ r1 :: r2 :: r3 :: r4 :: tape'
      /\ Aux.accepted points r1 r2 r3 r4 p.
Proof.
  intro tape. induction tape as [tape IH] using tape_ind.
  intros p tape' Hrun.
  destruct tape as [| r1 [| r2 [| r3 tape3]]]; try discriminate Hrun.
  cbn [Mousygons.createPoint_loop] in Hrun.
  destruct (existsb
    (Mousygons.conflicts
       (Mousygons.choosePositionX (Mousygons.chooseDimensions r1) r2)
       (Mousygons.choosePositionY (Mousygons.chooseDimensions r1) r3)
       (Mousygons.chooseDimensions r1)) points) eqn:Hconflict;
    cbn [negb] in Hrun.
  - apply IH in Hrun; [| simpl; lia].
    destruct Hrun as (rejected & q1 & q2 & q3 & q4 & Htape & Hacc).
    exists (r1 :: r2 :: r3 :: rejected), q1, q2, q3, q4.
    split; [now rewrite Htape | exact Hacc].
  - destruct tape3 as [| r4 tape4]; [discriminate Hrun |].
    injection Hrun as Hp Htape.
    exists [], r1, r2, r3, r4. subst tape'.
    split; [reflexivity |].
    unfold Aux.accepted. split; [exact Hconflict | now symmetry].
Qed.

Lemma createPoint_accepts (points : list Point) (tape : list num)
    (p : Point) (tape' : list num) :
  Mousygons.createPoint points tape = Some (p, tape') ->
  exists rejected r1 r2 r3 r4,
    tape = rejected ++ r1 :: r2 :: r3 :: r4 :: tape'
    /\ Aux.accepted points r1 r2 r3 r4 p.
Proof. apply createPoint_loop_accepts. Qed.

(** A property of the collection that every accepted point keeps holds
    after [fillPoints], which also leaves at least six points. *)
Lemma fillPoints_loop_invariant (P : list Point -> Prop) :
  (forall points tape p tape',
      (List.length points < Mousygons.MAX_POINTS_ALIVE)%nat -> P points ->
      Mousygons.createPoint points tape = Some (p, tape') -> P (points ++ [p])) ->
  forall fuel points tape points' tape',
    P points ->
    Mousygons.fillPoints_loop fuel points tape = Some (points', tape') ->
    P points' /\ (Mousygons.MAX_POINTS_ALIVE <= List.length points')%nat.
Proof.
  intros Hstep fuel. induction fuel as [| fuel IH]; intros points tape points' tape' HP Hrun;
    cbn [Mousygons.fillPoints_loop] in Hrun;
    destruct (Nat.ltb_spec (List.length points) Mousygons.MAX_POINTS_ALIVE) as [Hlt | Hge];
    try discriminate Hrun.
  - injection Hrun as <- <-. now split.
  - destruct (Mousygons.createPoint points tape) as [[p tape1] |] eqn:Hcreate;
      [| discriminate Hrun].
    apply IH in Hrun; [exact Hrun |].
    now apply Hstep with (tape := tape) (tape' := tape1).
  - injection Hrun as <- <-. now split.
Qed.

(** [fillPoints] only appends, and stops at six points. *)
Lemma fillPoints_loop_appends (fuel : nat) :
  forall points tape points' tape',
    Mousygons.fillPoints_loop fuel points tape = Some (points', tape') ->
    exists added,
      points' = points ++ added
      /\ List.length points' = Nat.max (List.length points) Mousygons.MAX_POINTS_ALIVE.
Proof.
  induction fuel as [| fuel IH]; intros points tape points' tape' Hrun;
    cbn [Mousygons.fillPoints_loop] in Hrun;
    destruct (Nat.ltb_spec (List.length points) Mousygons.MAX_POINTS_ALIVE) as [Hlt | Hge];
    try discriminate Hrun.
  - injection Hrun as <- <-. exists []. rewrite app_nil_r. split; [reflexivity | lia].
  - destruct (Mousygons.createPoint points tape) as [[p tape1] |] eqn:Hcreate;
      [| discriminate Hrun].
    apply IH in Hrun. destruct Hrun as [added [Heq Hlen]].
    exists (p :: added). split.
    + rewrite Heq, <- app_assoc. reflexivity.
    + rewrite Hlen, length_app. simpl. lia.
  - injection Hrun as <- <-. exists []. rewrite app_nil_r. split; [reflexivity | lia].
Qed.

(** The fuel of [fillPoints] is enough: with it, the loop stops only at
    six points or for want of random numbers, and more fuel changes
    nothing. *)
Lemma fillPoints_loop_fuel (fuel : nat) :
  forall points tape,
    (Mousygons.MAX_POINTS_ALIVE <= List.length points + fuel)%nat ->
    Mousygons.fillPoints_loop (S fuel) points tape
    = Mousygons.fillPoints_loop fuel points tape.
Proof.
  induction fuel as [| fuel IH]; intros points tape Hfuel.
  - cbn [Mousygons.fillPoints_loop].
    destruct (Nat.ltb_spec (List.length points) Mousygons.MAX_POINTS_ALIVE); [lia | reflexivity].
  - cbn [Mousygons.fillPoints_loop].
    destruct (Nat.ltb_spec (List.length points) Mousygons.MAX_POINTS_ALIVE); [| reflexivity].
    destruct (Mousygons.createPoint points tape) as [[p tape1] |]; [| reflexivity].
    specialize (IH (points ++ [p]) tape1).
    cbn [Mousygons.fillPoints_loop] in IH. apply IH.
    rewrite length_app. simpl. lia.
Qed.

(** *** The pairs the conflict test has passed *)

Lemma separated_snoc (points : list Point) (q : Point) :
  Aux.separated points ->
  Forall (fun p => Spec.apart_by_size_of_second p q) points ->
  Aux.separated (points ++ [q]).
Proof.
  unfold Aux.separated. intros Hsep Hq.
  induction Hsep as [| p points Hp Hsep IH]; simpl.
  - constructor; constructor.
  - inversion Hq as [| ? ? Hpq Hrest]; subst.
    constructor; [| now apply IH].
    apply Forall_app. split; [exact Hp | now constructor].
Qed.

Lemma accepted_apart (points : list Point) (r1 r2 r3 r4 : num) (q : Point) :
  Aux.accepted points r1 r2 r3 r4 q ->
  Forall (fun p => Spec.apart_by_size_of_second p q) points.
Proof.
  intros [Hnone Hq]. subst q. apply Forall_forall. intros p Hin.
  unfold Spec.apart_by_size_of_second. cbn [Point.x Point.y Point.dimensions Point.new].
  destruct (Point.distanceToCoords p
              (Mousygons.choosePositionX (Mousygons.chooseDimensions r1) r2)
              (Mousygons.choosePositionY (Mousygons.chooseDimensions r1) r3)
            <= Mousygons.chooseDimensions r1 * of_Z 6)%js eqn:Hle; [| reflexivity].
  assert (existsb (Mousygons.conflicts
            (Mousygons.choosePositionX (Mousygons.chooseDimensions r1) r2)
            (Mousygons.choosePositionY (Mousygons.chooseDimensions r1) r3)
            (Mousygons.chooseDimensions r1)) points = true) as Hsome
    by (apply existsb_exists; exists p; split; [exact Hin | exact Hle]).
  rewrite Hnone in Hsome. discriminate Hsome.
Qed.

Lemma separated_pairs (points : list Point) :
  Aux.separated points ->
  forall (i j : nat) (p q : Point),
    (i < j)%nat -> nth_error points i = Some p -> nth_error points j = Some q ->
    Spec.apart_by_size_of_second p q.
Proof.
  unfold Aux.separated. intro Hsep.
  induction Hsep as [| a points Ha Hsep IH]; intros i j p q Hij Hi Hj.
  - destruct i; discriminate Hi.
  - destruct j as [| j]; [lia |]. cbn [nth_error] in Hj.
    destruct i as [| i]; cbn [nth_error] in Hi.
    + injection Hi as <-. apply nth_error_In in Hj.
      rewrite Forall_forall in Ha. now apply Ha.
    + apply IH with (i := i) (j := j); [lia | assumption | assumption].
Qed.

Lemma apart_update_l (p q : Point) :
  Spec.apart_by_size_of_second p q ->
  Spec.apart_by_size_of_second (Point.update p) q.
Proof.
  unfold Spec.apart_by_size_of_second, Point.distanceToCoords.
  now rewrite PointFacts.update_x, PointFacts.update_y.
Qed.

Lemma apart_update_r (p q : Point) :
  Spec.apart_by_size_of_second p q ->
  Spec.apart_by_size_of_second p (Point.update q).
Proof.
  unfold Spec.apart_by_size_of_second.
  now rewrite PointFacts.update_x, PointFacts.update_y, PointFacts.update_dimensions.
Qed.

Lemma Forall_apart_sweep (p : Point) (points : list Point) :
  Forall (Spec.apart_by_size_of_second p) points ->
  Forall (Spec.apart_by_size_of_second p) (Aux.sweep points).
Proof.
  induction points as [points IH] using (well_founded_induction
    (wf_inverse_image _ _ _ (@List.length Point) lt_wf)).
  intro Hall. destruct points as [| a rest]; [constructor |].
  inversion Hall as [| ? ? Ha Hrest]; subst.
  destruct (Point.isSatisfied (Point.update a)) eqn:Hs.
  - destruct rest as [| b rest].
    + rewrite UpdatePointsFacts.sweep_removed_last by exact Hs. constructor.
    + rewrite UpdatePointsFacts.sweep_removed by exact Hs.
      inversion Hrest as [| ? ? Hb Hrest']; subst.
      constructor; [exact Hb |]. apply IH; [simpl; lia | exact Hrest'].
  - rewrite UpdatePointsFacts.sweep_kept by exact Hs.
    constructor; [now apply apart_update_r |].
    apply IH; [simpl; lia | exact Hrest].
Qed.

Lemma separated_sweep (points : list Point) :
  Aux.separated points -> Aux.separated (Aux.sweep points).
Proof.
  unfold Aux.separated.
  induction points as [points IH] using (well_founded_induction
    (wf_inverse_image _ _ _ (@List.length Point) lt_wf)).
  intro Hsep. destruct points as [| a rest]; [constructor |].
  inversion Hsep as [| ? ? Ha Hsep']; subst.
  destruct (Point.isSatisfied (Point.update a)) eqn:Hs.
  - destruct rest as [| b rest].
    + rewrite UpdatePointsFacts.sweep_removed_last by exact Hs. constructor.
    + rewrite UpdatePointsFacts.sweep_removed by exact Hs.
      inversion Hsep' as [| ? ? Hb Hsep'']; subst.
      constructor.
      * now apply Forall_apart_sweep.
      * apply IH; [simpl; lia | exact Hsep''].
  - rewrite UpdatePointsFacts.sweep_kept by exact Hs.
    constructor.
    + apply Forall_apart_sweep.
      apply Forall_impl with (P := Spec.apart_by_size_of_second a); [| exact Ha].
      intros c Hc. now apply apart_update_l.
    + apply IH; [simpl; lia | exact Hsep'].
Qed.

Lemma fillPoints_keeps_separated (points : list Point) (tape : list num)
    (points' : list Point) (tape' : list num) :
  Aux.separated points ->
  Mousygons.fillPoints points tape = Some (points', tape') ->
  Aux.separated points'.
Proof.
  intros Hsep Hrun. unfold Mousygons.fillPoints in Hrun.
  assert (forall pts tp p tp',
             (List.length pts < Mousygons.MAX_POINTS_ALIVE)%nat -> Aux.separated pts ->
             Mousygons.createPoint pts tp = Some (p, tp') ->
             Aux.separated (pts ++ [p])) as Hstep.
  { intros pts tp p tp' _ Hpts Hcreate.
    apply createPoint_accepts in Hcreate.
    destruct Hcreate as (rejected & r1 & r2 & r3 & r4 & _ & Hacc).
    apply separated_snoc; [exact Hpts |]. now apply accepted_apart with r1 r2 r3 r4. }
  destruct (fillPoints_loop_invariant Aux.separated Hstep _ _ _ Hsep Hrun) as [Hdone _].
  exact Hdone.
Qed.

Lemma update_keeps_separated (this : Mousygons.t num) (tape : list num)
    (this' : Mousygons.t num) (tape' : list num) :
  Aux.separated (Mousygons.points this) ->
  Mousygons.update this tape = Some (this', tape') ->
  Aux.separated (Mousygons.points this').
Proof.
  intros Hsep Hrun. unfold Mousygons.update in Hrun.
  cbn [Mousygons.points Mousygons.clearCanvas] in Hrun.
  destruct (Mousygons.fillPoints (Mousygons.points this) tape) as [[filled tape1] |] eqn:Hfill;
    [| discriminate Hrun].
  injection Hrun as <- <-.
  cbn [Mousygons.points Mousygons.drawPoints Mousygons.with_points].
  rewrite UpdatePointsFacts.updatePoints_sweep.
  apply separated_sweep. now apply fillPoints_keeps_separated with (1 := Hsep) (2 := Hfill).
Qed.

Lemma ticks_keep_separated (n : nat) :
  forall (this : Mousygons.t num) (tape : list num)
         (this' : Mousygons.t num) (tape' : list num),
    Aux.separated (Mousygons.points this) ->
    Mousygons.ticks n this tape = Some (this', tape') ->
    Aux.separated (Mousygons.points this').
Proof.
  induction n as [| n IH]; intros this tape this' tape' Hsep Hrun;
    cbn [Mousygons.ticks] in Hrun.
  - injection Hrun as <- <-. exact Hsep.
  - destruct (Mousygons.update this tape) as [[this1 tape1] |] eqn:Hup; [| discriminate Hrun].
    apply IH with (2 := Hrun). now apply update_keeps_separated with (2 := Hup).
Qed.

End WithNumber.
End FillFacts.

(** ** The random helpers in exact arithmetic *)

Module RandomFacts.

Local Open Scope R_scope.



Lemma exact_randomIntBetween (min max r : R) :
  Mousygons.randomIntBetween min max r = IZR (Zfloor (r * (max - min + 1) + min)).
Proof. reflexivity. Qed.





End RandomFacts.

(** ** Runs in binary64 *)

Module Runs.

(** The constants and [Math.floor] in binary64. *)
Lemma binary64_constants :
  (Mousygons.FADE_MIN = 0.25 /\ Mousygons.FADE_MAX = 1.75
   /\ Mousygons.CANVAS_WIDTH = 64 /\ Point.ALPHA_THRESHOLD = 255)%float.
Proof. repeat apply conj; vm_compute; reflexivity. Qed.

Lemma binary64_floor_samples :
  (Math_floor 63.75 = 63 /\ Math_floor 0.5 = 0 /\ Math_floor (-0.5) = -1
   /\ Math_floor (-3.25) = -4 /\ Math_floor 7 = 7
   /\ Math_floor 0x1p+60 = 0x1p+60 /\ Math_floor 0x1p-1074 = 0)%float.
Proof. repeat apply conj; vm_compute; reflexivity. Qed.

Lemma fill_tape6 :
  Mousygons.fillPoints [] Aux.tape6 = Some (Aux.placed6, []).
Proof. vm_compute. reflexivity. Qed.

Lemma tick_tape6 :
  option_map (fun st => Mousygons.points (fst st))
    (Mousygons.update Mousygons.initial Aux.tape6)
  = Some (map Point.update Aux.placed6).
Proof. vm_compute. reflexivity. Qed.

End Runs.

(** C1: the code at the failing input.  Both points are one call of
    [update()] away from the threshold.  The loop updates and removes the
    first; the second moves to index 0, which the loop has left, and is
    never updated: it stays in the collection with its old fade value,
    where "every point updated once, the satisfied ones removed" leaves no
    point.  The same happens in a run from the initial state: the six
    points placed from [tape6] reach fade value 254 after 254 ticks, and
    tick 255 removes the points at indices 0, 2 and 4 and does not update
    the other three. *)
Theorem updatePoints_leaves_point_behind_removed_one :
  (let a := Point.Build 10 10 4 254 1 false in
   let b := Point.Build 10 23 2 254 1 false in
   Mousygons.updatePoints [a; b] = [b]
   /\ Spec.advance_and_evict [a; b] = []
   /\ option_map (fun st => Mousygons.points (fst st))
        (Mousygons.ticks 254 Mousygons.initial Aux.tape6)
      = Some (map (Point.updates 254) Aux.placed6)
   /\ option_map (fun st => Mousygons.points (fst st))
        (Mousygons.ticks 255 Mousygons.initial Aux.tape6)
      = Some (map (Point.updates 254)
                [Point.new 10 23 2 1; Point.new 40 40 2 1; Point.new 60 60 2 1]))%float.
Proof. cbv zeta. repeat apply conj; vm_compute; reflexivity. Qed.

(** C2, as stated, fails.  From the empty collection and [tape6],
    [fillPoints] places a point of size 4 at (10,10) and then one of size
    2 at (10,23): their distance is 13, above 6 x 2 and therefore
    accepted, and not above 6 x 4, six times the size of the first. *)
Lemma fillPoints_pair_within_six_sizes_of_first :
  (let p := Point.new 10 10 4 1 in
   let q := Point.new 10 23 2 1 in
   Mousygons.fillPoints [] Aux.tape6 = Some (Aux.placed6, [])
   /\ nth_error Aux.placed6 0 = Some p
   /\ nth_error Aux.placed6 1 = Some q
   /\ p <> q
   /\ Point.distanceToCoords p (Point.x q) (Point.y q) = 13
   /\ ~ Spec.apart_by_size_of_first p q)%float.
Proof.
  cbv zeta. repeat apply conj; try (vm_compute; reflexivity).
  - intro Heq. discriminate Heq.
  - unfold Spec.apart_by_size_of_first. vm_compute. discriminate.
Qed.

(** C2, as amended.  When every point of the collection is apart from
    every earlier one by more than six times its own size (as in the
    empty collection, and in every state the ticks reach), the same holds
    after [fillPoints]: for p before q in the collection, the distance
    from p to the position of q is above six times the size of q, the
    point placed later. *)
Theorem fillPoints_apart_by_size_of_later
    (num : Type) (N : Number num)
    (points : list (Point.t num)) (tape : list num)
    (points' : list (Point.t num)) (tape' : list num) :
  Aux.separated points ->
  Mousygons.fillPoints points tape = Some (points', tape') ->
  forall (i j : nat) (p q : Point.t num),
    (i < j)%nat -> nth_error points' i = Some p -> nth_error points' j = Some q ->
    Spec.apart_by_size_of_second p q.
Proof.
  intros Hsep Hfill. apply FillFacts.separated_pairs.
  now apply FillFacts.fillPoints_keeps_separated with (1 := Hsep) (2 := Hfill).
Qed.

(** The theorem at the first two points placed from [tape6]. *)
Lemma fillPoints_apart_by_size_of_later_witness :
  Spec.apart_by_size_of_second (Point.new 10 10 4 1)%float (Point.new 10 23 2 1)%float.
Proof.
  apply (@fillPoints_apart_by_size_of_later float binary64 [] Aux.tape6 Aux.placed6 []
           (FOP_nil _) Runs.fill_tape6 0%nat 1%nat).
  - lia.
  - reflexivity.
  - reflexivity.
Defined.

(** ** The number of active points *)

Module CountFacts.
Section WithNumber.
Context {num : Type} {N : Number num}.

Lemma fillPoints_length (points : list (Point.t num)) (tape : list num)
    (points' : list (Point.t num)) (tape' : list num) :
  Mousygons.fillPoints points tape = Some (points', tape') ->
  List.length points' = Nat.max (List.length points) Mousygons.MAX_POINTS_ALIVE.
Proof.
  intro Hfill. unfold Mousygons.fillPoints in Hfill.
  apply FillFacts.fillPoints_loop_appends in Hfill.
  destruct Hfill as [added [_ Hlen]]. exact Hlen.
Qed.

Lemma update_length (this : Mousygons.t num) (tape : list num)
    (this' : Mousygons.t num) (tape' : list num) :
  (List.length (Mousygons.points this) <= Mousygons.MAX_POINTS_ALIVE)%nat ->
  Mousygons.update this tape = Some (this', tape') ->
  (List.length (Mousygons.points this') <= Mousygons.MAX_POINTS_ALIVE)%nat.
Proof.
  intros Hlen Hrun. unfold Mousygons.update in Hrun.
  cbn [Mousygons.points Mousygons.clearCanvas] in Hrun.
  destruct (Mousygons.fillPoints (Mousygons.points this) tape) as [[filled tape1] |] eqn:Hfill;
    [| discriminate Hrun].
  injection Hrun as <- <-.
  cbn [Mousygons.points Mousygons.drawPoints Mousygons.with_points].
  apply fillPoints_length in Hfill.
  pose proof (UpdatePointsFacts.updatePoints_length filled) as Hup. lia.
Qed.

Lemma ticks_length (n : nat) :
  forall (this : Mousygons.t num) (tape : list num)
         (this' : Mousygons.t num) (tape' : list num),
    (List.length (Mousygons.points this) <= Mousygons.MAX_POINTS_ALIVE)%nat ->
    Mousygons.ticks n this tape = Some (this', tape') ->
    (List.length (Mousygons.points this') <= Mousygons.MAX_POINTS_ALIVE)%nat.
Proof.
  induction n as [| n IH]; intros this tape this' tape' Hlen Hrun;
    cbn [Mousygons.ticks] in Hrun.
  - injection Hrun as <- <-. exact Hlen.
  - destruct (Mousygons.update this tape) as [[this1 tape1] |] eqn:Hup; [| discriminate Hrun].
    apply IH with (2 := Hrun). now apply update_length with (2 := Hup).
Qed.

End WithNumber.
End CountFacts.

(** C3.  From a state with at most six active points, every number of
    ticks leaves at most six, so that [fillPoints] always starts from at
    most six.  [fillPoints] only appends, and ends with six points when
    it started below six and with the points it was given otherwise;
    [updatePoints] never lengthens the collection; [clearCanvas] and
    [drawPoints] leave it as it is. *)
Theorem active_points_at_most_six
    (num : Type) (N : Number num) (this : Mousygons.t num) :
  (List.length (Mousygons.points this) <= Mousygons.MAX_POINTS_ALIVE)%nat ->
  (forall (n : nat) (tape : list num) (this' : Mousygons.t num) (tape' : list num),
      Mousygons.ticks n this tape = Some (this', tape') ->
      (List.length (Mousygons.points this') <= 6)%nat)
  /\ (forall (tape : list num) (filled : list (Point.t num)) (tape' : list num),
        Mousygons.fillPoints (Mousygons.points this) tape = Some (filled, tape') ->
        (exists added, filled = Mousygons.points this ++ added)
        /\ ((List.length (Mousygons.points this) < 6)%nat -> List.length filled = 6%nat)
        /\ ((6 <= List.length (Mousygons.points this))%nat ->
            filled = Mousygons.points this /\ tape' = tape))
  /\ (List.length (Mousygons.updatePoints (Mousygons.points this))
      <= List.length (Mousygons.points this))%nat
  /\ Mousygons.points (Mousygons.clearCanvas this) = Mousygons.points this
  /\ Mousygons.points (Mousygons.drawPoints this) = Mousygons.points this.
Proof.
  intro Hlen. split; [| split; [| split; [| split]]].
  - intros n tape this' tape' Hrun.
    exact (CountFacts.ticks_length n this tape Hlen Hrun).
  - intros tape filled tape' Hfill. split; [| split].
    + unfold Mousygons.fillPoints in Hfill.
      apply FillFacts.fillPoints_loop_appends in Hfill.
      destruct Hfill as [added [Heq _]]. now exists added.
    + intro Hlt. apply CountFacts.fillPoints_length in Hfill.
      unfold Mousygons.MAX_POINTS_ALIVE in Hfill. lia.
    + intro Hge. unfold Mousygons.fillPoints in Hfill.
      unfold Mousygons.MAX_POINTS_ALIVE at 1 in Hfill.
      cbn [Mousygons.fillPoints_loop] in Hfill.
      destruct (Nat.ltb_spec (List.length (Mousygons.points this))
                  Mousygons.MAX_POINTS_ALIVE) as [Hlt | _];
        [unfold Mousygons.MAX_POINTS_ALIVE in Hlt; lia |].
      injection Hfill as <- <-. now split.
  - apply UpdatePointsFacts.updatePoints_length.
  - reflexivity.
  - reflexivity.
Qed.

(** The theorem at two ticks from the constructor's state. *)
Lemma active_points_at_most_six_witness :
  match Mousygons.ticks 2 Mousygons.initial Aux.tape6 with
  | Some (this', _) => (List.length (Mousygons.points this') <= 6)%nat
  | None => False
  end.
Proof.
  destruct (Mousygons.ticks 2 Mousygons.initial Aux.tape6) as [[this' tape'] |] eqn:Hrun.
  - assert (List.length (Mousygons.points (@Mousygons.initial float binary64))
            <= Mousygons.MAX_POINTS_ALIVE)%nat as Hstart
      by (unfold Mousygons.MAX_POINTS_ALIVE; simpl; lia).
    exact (proj1 (@active_points_at_most_six float binary64 Mousygons.initial Hstart)
             2%nat Aux.tape6 this' tape' Hrun).
  - vm_compute in Hrun. discriminate Hrun.
Defined.

(** ** The candidates of the placement search *)




(** ** The random helpers in binary64 *)

(** C7: the code at the failing input.  [Math.random()] may return
    1 - 2^-53, the largest binary64 number below 1.  Its product with 3 is
    3 - 3 * 2^-53, which rounds to 3 - 2^-51; adding 2 gives 5 - 2^-51,
    halfway between the neighbours 5 - 2^-50 and 5, and the tie rounds to
    the even one, 5.  So [randomIntBetween(2, 4)] returns 5. *)
Theorem randomIntBetween_2_4_returns_5 :
  (Spec.unit_interval64 Aux.below_one = true
   /\ Aux.below_one * 3 = 0x1.7ffffffffffffp+1
   /\ Aux.below_one * 3 + 2 = 5
   /\ Mousygons.randomIntBetween 2 4 Aux.below_one = 5
   /\ Spec.one_of_2_3_4 (Mousygons.randomIntBetween 2 4 Aux.below_one) = false)%float.
Proof. repeat apply conj; vm_compute; reflexivity. Qed.

(** C10: the code at the failing input, the defect of C7 seen through
    [createPoint].  With [Math.random()] answering 1 - 2^-53 first, the
    pass is accepted (the collection is empty) and the point returned has
    size 5, which is none of 2, 3 and 4. *)
Theorem createPoint_returns_size_5 :
  (Spec.unit_interval64 Aux.below_one = true
   /\ Mousygons.createPoint [] [Aux.below_one; 0.5; 0.5; 0.5]
      = Some (Point.new 33 33 5 1, [])
   /\ Point.dimensions (Point.new 33 33 5 1) = 5
   /\ Spec.one_of_2_3_4 (Point.dimensions (Point.new 33 33 5 1)) = false)%float.
Proof. repeat apply conj; vm_compute; reflexivity. Qed.

Module CreatePointFacts.



End CreatePointFacts.



(** ** Mousygons.hexToRgb *)

Module HexFacts.

Local Open Scope string_scope.

Lemma class_hex_member (c : ascii) :
  Hex.class_hex c
  = existsb (Ascii.eqb c) (list_ascii_of_string "0123456789abcdefABCDEF").
Proof. destruct c as [[] [] [] [] [] [] [] []]; reflexivity. Qed.

Lemma class_hex_spec (c : ascii) : Hex.class_hex c = true <-> Spec.hex_digit c.
Proof.
  rewrite class_hex_member. unfold Spec.hex_digit. rewrite existsb_exists. split.
  - intros [d [Hin Heq]]. apply Ascii.eqb_eq in Heq. now subst d.
  - intro Hin. exists c. split; [exact Hin | apply Ascii.eqb_refl].
Qed.

Lemma group_some (s : string) (g rest : string) :
  Hex.group s = Some (g, rest) <->
  exists a b, s = String a (String b rest) /\ g = String a (String b "")
              /\ Hex.class_hex a = true /\ Hex.class_hex b = true.
Proof.
  unfold Hex.group. split.
  - destruct s as [| a [| b s']]; try discriminate.
    destruct (Hex.class_hex a) eqn:Ha; [| discriminate].
    destruct (Hex.class_hex b) eqn:Hb; [| discriminate].
    cbn [andb]. intro Heq. injection Heq as <- <-. now exists a, b.
  - intros (a & b & -> & -> & Ha & Hb). now rewrite Ha, Hb.
Qed.

Lemma group_hex (a b : ascii) (rest : string) :
  Hex.class_hex a = true -> Hex.class_hex b = true ->
  Hex.group (String a (String b rest)) = Some (String a (String b ""), rest).
Proof. intros Ha Hb. unfold Hex.group. now rewrite Ha, Hb. Qed.

Lemma six_hex_digits_spec (s : string) :
  Spec.six_hex_digits s <->
  exists a b c d e f,
    s = String a (String b (String c (String d (String e (String f "")))))
    /\ Hex.class_hex a = true /\ Hex.class_hex b = true /\ Hex.class_hex c = true
    /\ Hex.class_hex d = true /\ Hex.class_hex e = true /\ Hex.class_hex f = true.
Proof.
  unfold Spec.six_hex_digits. split.
  - intros [Hlen Hall].
    destruct s as [| a [| b [| c [| d [| e [| f [| g s']]]]]]]; try discriminate Hlen.
    cbn [list_ascii_of_string] in Hall.
    repeat match goal with
           | H : Forall _ (_ :: _) |- _ => inversion H; clear H; subst
           end.
    exists a, b, c, d, e, f. rewrite <- !class_hex_spec in *. now repeat split.
  - intros (a & b & c & d & e & f & -> & Ha & Hb & Hc & Hd & He & Hf).
    split; [reflexivity |]. cbn [list_ascii_of_string].
    rewrite !class_hex_spec in *.
    repeat (apply Forall_cons; [assumption |]). apply Forall_nil.
Qed.

Lemma groups_some (s : string) :
  (exists r, Hex.groups s = Some r) <-> Spec.six_hex_digits s.
Proof.
  rewrite six_hex_digits_spec. unfold Hex.groups. split.
  - intros [r Hr].
    destruct (Hex.group s) as [[g1 s1] |] eqn:H1; [| discriminate Hr].
    destruct (Hex.group s1) as [[g2 s2] |] eqn:H2; [| discriminate Hr].
    destruct (Hex.group s2) as [[g3 s3] |] eqn:H3; [| discriminate Hr].
    destruct s3; [| discriminate Hr].
    apply group_some in H1, H2, H3.
    destruct H1 as (a & b & -> & _ & Ha & Hb).
    destruct H2 as (c & d & -> & _ & Hc & Hd).
    destruct H3 as (e & f & -> & _ & He & Hf).
    now exists a, b, c, d, e, f.
  - intros (a & b & c & d & e & f & -> & Ha & Hb & Hc & Hd & He & Hf).
    rewrite (group_hex a b _ Ha Hb), (group_hex c d _ Hc Hd), (group_hex e f _ He Hf).
    now eexists.
Qed.

Lemma exec_cons (a : ascii) (rest : string) :
  Hex.exec (String a rest)
  = if Ascii.eqb a "#"
    then match Hex.groups rest with
         | Some r => Some r
         | None => Hex.groups (String a rest)
         end
    else Hex.groups (String a rest).
Proof. destruct a as [[] [] [] [] [] [] [] []]; reflexivity. Qed.

Lemma groups_hash (rest : string) : Hex.groups (String "#" rest) = None.
Proof. unfold Hex.groups, Hex.group. destruct rest; reflexivity. Qed.

Lemma six_hex_digits_no_hash (rest : string) :
  ~ Spec.six_hex_digits (String "#" rest).
Proof.
  rewrite <- groups_some. rewrite groups_hash. intros [r Hr]. discriminate Hr.
Qed.

Lemma exec_some (s : string) :
  (exists r, Hex.exec s = Some r) <-> Spec.strict_hex s.
Proof.
  unfold Spec.strict_hex. destruct s as [| a rest].
  - change (Hex.exec "") with (Hex.groups ""). rewrite groups_some. split.
    + intro H. now left.
    + intros [H | [body [Heq _]]]; [exact H | discriminate Heq].
  - rewrite exec_cons. destruct (Ascii.eqb_spec a "#") as [-> | Hne].
    + rewrite groups_hash. split.
      * intros [r Hr]. right. exists rest. split; [reflexivity |].
        apply groups_some. exists r. now destruct (Hex.groups rest).
      * intros [H | [body [Heq Hbody]]].
        -- now apply six_hex_digits_no_hash in H.
        -- injection Heq as ->. apply groups_some in Hbody.
           destruct Hbody as [r ->]. now exists r.
    + rewrite groups_some. split.
      * intro H. now left.
      * intros [H | [body [Heq _]]]; [exact H |].
        injection Heq as Ha _. now elim Hne.
Qed.

Lemma hexToRgb_none (num : Type) (N : Number num) (hex : string) :
  Mousygons.hexToRgb hex = None <-> Hex.exec hex = None.
Proof.
  unfold Mousygons.hexToRgb.
  destruct (Hex.exec hex) as [[[r1 r2] r3] |]; split; intro H;
    try discriminate H; reflexivity.
Qed.

End HexFacts.

(** C6.  [hexToRgb] returns (0, 191, 155) for "#00bf9b" and for "00BF9B",
    returns null for "not-a-color", and returns null exactly for the
    strings that are not six hexadecimal digits with an optional '#' in
    front. *)
Theorem hexToRgb_teal_and_no_match (num : Type) (N : Number num) :
  Mousygons.hexToRgb "#00bf9b"
  = Some {| Mousygons.r := of_Z 0; Mousygons.g := of_Z 191; Mousygons.b := of_Z 155 |}
  /\ Mousygons.hexToRgb "00BF9B"
     = Some {| Mousygons.r := of_Z 0; Mousygons.g := of_Z 191; Mousygons.b := of_Z 155 |}
  /\ Mousygons.hexToRgb "not-a-color" = None
  /\ (forall hex : string, Mousygons.hexToRgb hex = None <-> ~ Spec.strict_hex hex).
Proof.
  repeat apply conj; try reflexivity.
  intro hex. rewrite HexFacts.hexToRgb_none, <- HexFacts.exec_some. split.
  - intros Hnone [r Hr]. rewrite Hnone in Hr. discriminate Hr.
  - intro Hno. destruct (Hex.exec hex) as [r |]; [| reflexivity].
    elim Hno. now exists r.
Qed.

(** ** The mouse handler *)

(** C8, as stated, fails.  For the pointer at (100, 100) the handler
    requests left = 74 and top = 78; the centre of the 64x64 surface is
    then (106, 110), the pointer plus (6, 10), and not the pointer plus
    (64/2 - 12/2, 64/2 - 20/2) = (26, 22), which is (126, 122).  It is
    the top-left corner that lies (26, 22) from the pointer, above and to
    the left of it. *)
Lemma mouseMovementHandler_center_not_offset_by_26_22 :
  (let this' := Mousygons.mouseMovementHandler Mousygons.initial 100 100 in
   Spec.placement this'
   = Some {| Mousygons.left := 74; Mousygons.top := 78;
             Mousygons.position := "absolute"; Mousygons.pointerEvents := "none" |}
   /\ option_map Spec.center (Spec.placement this') = Some (106, 110)
   /\ Spec.half_overlay_minus_half_cursor = (26, 22)
   /\ Spec.claimed_center 100 100 = (126, 122)
   /\ option_map Spec.center (Spec.placement this')
      <> Some (Spec.claimed_center 100 100))%float.
Proof.
  cbv zeta. repeat apply conj; try (vm_compute; reflexivity).
  intro Heq.
  apply (f_equal (fun c => match c with
                           | Some (cx, _) => PrimFloat.eqb cx 126
                           | None => false
                           end)) in Heq.
  vm_compute in Heq. discriminate Heq.
Qed.

(** C8, as amended.  In every arithmetic, when the element exists, the
    handler stores (x, y) as the pointer position, requests
    left = x - 64/2 + 12/2 and top = y - 64/2 + 20/2 (absolute, no pointer
    events) and draws nothing.  In exact arithmetic that places the
    top-left corner at the pointer minus (64/2 - 12/2, 64/2 - 20/2) and
    the centre of the surface at the pointer plus half the cursor's width
    and height, (12/2, 20/2): below and to the right of the pointer. *)
Theorem mouseMovementHandler_placement :
  (forall (num : Type) (N : Number num) (this : Mousygons.t num)
          (element : Mousygons.CanvasElement num) (pageX pageY : num),
      Mousygons.mouseCanvas this = Some element ->
      let this' := Mousygons.mouseMovementHandler this pageX pageY in
      Mousygons.mousePosition this' = {| Mousygons.x := pageX; Mousygons.y := pageY |}
      /\ Spec.placement this'
         = Some {| Mousygons.left :=
                     (pageX - Mousygons.CANVAS_WIDTH / of_Z 2
                      + Mousygons.MOUSE_WIDTH / of_Z 2)%js;
                   Mousygons.top :=
                     (pageY - Mousygons.CANVAS_HEIGHT / of_Z 2
                      + Mousygons.MOUSE_HEIGHT / of_Z 2)%js;
                   Mousygons.position := "absolute";
                   Mousygons.pointerEvents := "none" |}
      /\ Mousygons.canvas this' = Mousygons.canvas this)
  /\ (forall (this : Mousygons.t R) (element : Mousygons.CanvasElement R)
             (pageX pageY : R),
        Mousygons.mouseCanvas this = Some element ->
        let this' := Mousygons.mouseMovementHandler this pageX pageY in
        exists css,
          Spec.placement this' = Some css
          /\ Mousygons.left css = (pageX - (64 / 2 - 12 / 2))%R
          /\ Mousygons.top css = (pageY - (64 / 2 - 20 / 2))%R
          /\ Spec.center css = (pageX + 12 / 2, pageY + 20 / 2)%R).
Proof.
  split.
  - intros num N this element pageX pageY Hel this'.
    unfold this', Mousygons.mouseMovementHandler, Mousygons.updateMouseCanvas, Spec.placement.
    cbn [Mousygons.mouseCanvas Mousygons.mousePosition Mousygons.x Mousygons.y].
    rewrite Hel. now repeat split.
  - intros this element pageX pageY Hel this'.
    unfold this', Mousygons.mouseMovementHandler, Mousygons.updateMouseCanvas, Spec.placement.
    cbn [Mousygons.mouseCanvas Mousygons.mousePosition Mousygons.x Mousygons.y].
    rewrite Hel. eexists. split; [reflexivity |].
    unfold Spec.center.
    cbn [Mousygons.left Mousygons.top Mousygons.mouseCanvas Mousygons.style].
    unfold Mousygons.CANVAS_WIDTH, Mousygons.CANVAS_HEIGHT,
      Mousygons.MOUSE_WIDTH, Mousygons.MOUSE_HEIGHT.
    cbn [of_Z add sub div exact].
    split; [lra |]. split; [lra |]. f_equal; lra.
Qed.

(** The theorem at the pointer (100, 100) in the constructor's state. *)
Lemma mouseMovementHandler_placement_witness :
  exists css : Mousygons.Css R,
    Spec.placement (Mousygons.mouseMovementHandler Mousygons.initial 100 100)%R = Some css
    /\ Mousygons.left css = (100 - (64 / 2 - 12 / 2))%R
    /\ Mousygons.top css = (100 - (64 / 2 - 20 / 2))%R
    /\ Spec.center css = (100 + 12 / 2, 100 + 20 / 2)%R.
Proof.
  apply (proj2 mouseMovementHandler_placement Mousygons.initial
           {| Mousygons.style := Spec.placement (@Mousygons.initial R exact) |} 100%R 100%R).
  reflexivity.
Defined.

(** C9.  The handler leaves the active collection as it is, the same
    points in the same order with the same position, size, fade value and
    satisfied flag, and makes no call on the drawing context. *)
Theorem mouseMovementHandler_keeps_points
    (num : Type) (N : Number num) (this : Mousygons.t num) (pageX pageY : num) :
  Mousygons.points (Mousygons.mouseMovementHandler this pageX pageY)
  = Mousygons.points this
  /\ Mousygons.canvas (Mousygons.mouseMovementHandler this pageX pageY)
     = Mousygons.canvas this.
Proof.
  unfold Mousygons.mouseMovementHandler, Mousygons.updateMouseCanvas.
  cbn [Mousygons.mouseCanvas]. now destruct (Mousygons.mouseCanvas this).
Qed.

(** ** Further properties *)

(** X1.  In every state the ticks reach from the constructor's state, each
    point of the collection is apart from every earlier one by more than
    six times its own size. *)
Theorem reachable_points_apart
    (num : Type) (N : Number num) (n : nat) (tape : list num)
    (this' : Mousygons.t num) (tape' : list num) :
  Mousygons.ticks n Mousygons.initial tape = Some (this', tape') ->
  forall (i j : nat) (p q : Point.t num),
    (i < j)%nat ->
    nth_error (Mousygons.points this') i = Some p ->
    nth_error (Mousygons.points this') j = Some q ->
    Spec.apart_by_size_of_second p q.
Proof.
  intro Hrun. apply FillFacts.separated_pairs.
  apply (FillFacts.ticks_keep_separated n Mousygons.initial tape) with (2 := Hrun).
  apply FOP_nil.
Qed.

(** The theorem at the first and third point after one tick. *)
Lemma reachable_points_apart_witness :
  match Mousygons.ticks 1 Mousygons.initial Aux.tape6 with
  | Some (this', _) =>
      forall p q : Point.t float,
        nth_error (Mousygons.points this') 0 = Some p ->
        nth_error (Mousygons.points this') 2 = Some q ->
        Spec.apart_by_size_of_second p q
  | None => False
  end.
Proof.
  destruct (Mousygons.ticks 1 Mousygons.initial Aux.tape6) as [[this' tape'] |] eqn:Hrun.
  - intros p q.
    exact (@reachable_points_apart float binary64 1 Aux.tape6 this' tape' Hrun
             0%nat 2%nat p q (Nat.lt_0_succ 1)).
  - vm_compute in Hrun. discriminate Hrun.
Defined.

(** X2.  When [update()] makes a point satisfied, [updatePoints] removes
    it and does not call [update()] on the point behind it in that pass; the
    loop goes on with the points after that one. *)
Theorem updatePoints_skips_next
    (num : Type) (N : Number num) (p q : Point.t num) (rest : list (Point.t num)) :
  Point.isSatisfied (Point.update p) = true ->
  Mousygons.updatePoints (p :: q :: rest) = q :: Mousygons.updatePoints rest.
Proof. apply UpdatePointsFacts.updatePoints_skips. Qed.

(** The theorem at three points that are each one call from the threshold. *)
Lemma updatePoints_skips_next_witness :
  (let p := Point.Build 10 10 4 254 1 false in
   let q := Point.Build 10 23 2 254 1 false in
   let r := Point.Build 40 10 2 254 1 false in
   Mousygons.updatePoints [p; q; r] = q :: Mousygons.updatePoints [r])%float.
Proof.
  cbv zeta. apply updatePoints_skips_next. vm_compute. reflexivity.
Defined.



(** ** Ticks and mouse moves, one after the other *)

Module TickFacts.
Section WithNumber.
Context {num : Type} {N : Number num}.

Local Abbreviation Point := (Point.t num).
Local Abbreviation unsatisfied := (fun p : Point.t num => Point.satisfied p = false).

Lemma constructor_initial : @Host.constructor num N = Mousygons.initial.
Proof. reflexivity. Qed.

Lemma hexToRgb_teal :
  @Mousygons.hexToRgb num N "#00bf9b"
  = Some {| Mousygons.r := of_Z 0; Mousygons.g := of_Z 191; Mousygons.b := of_Z 155 |}.
Proof. reflexivity. Qed.

(** *** updatePoints *)

Lemma sweep_unsatisfied (points : list Point) :
  Forall unsatisfied points -> Forall unsatisfied (Aux.sweep points).
Proof.
  induction points as [points IH] using (well_founded_induction
    (wf_inverse_image _ _ _ (@List.length Point) lt_wf)).
  intro Hall. destruct points as [| a rest]; [constructor |].
  inversion Hall as [| ? ? Ha Hrest]; subst.
  destruct (Point.isSatisfied (Point.update a)) eqn:Hs.
  - destruct rest as [| b rest].
    + rewrite UpdatePointsFacts.sweep_removed_last by exact Hs. constructor.
    + rewrite UpdatePointsFacts.sweep_removed by exact Hs.
      inversion Hrest as [| ? ? Hb Hrest']; subst.
      constructor; [exact Hb |]. apply IH; [simpl; lia | exact Hrest'].
  - rewrite UpdatePointsFacts.sweep_kept by exact Hs.
    constructor; [exact Hs |]. apply IH; [simpl; lia | exact Hrest].
Qed.

Lemma sweep_nothing_removed (points : list Point) :
  Forall (fun p => Point.satisfied (Point.update p) = false) points ->
  Aux.sweep points = map Point.update points.
Proof.
  induction points as [| a rest IH]; intro Hall; [reflexivity |].
  inversion Hall as [| ? ? Ha Hrest]; subst.
  rewrite UpdatePointsFacts.sweep_kept by exact Ha.
  cbn [map]. now rewrite IH.
Qed.

Lemma advance_and_evict_nothing_removed (points : list Point) :
  Forall (fun p => Point.satisfied (Point.update p) = false) points ->
  Spec.advance_and_evict points = map Point.update points.
Proof.
  unfold Spec.advance_and_evict.
  induction points as [| a rest IH]; intro Hall; [reflexivity |].
  inversion Hall as [| ? ? Ha Hrest]; subst.
  cbn [map filter]. rewrite Ha. cbn [negb]. now rewrite IH.
Qed.

Lemma sweep_provenance (points : list Point) :
  forall q, In q (Aux.sweep points) ->
            exists p, In p points /\ (q = Point.update p \/ q = p).
Proof.
  induction points as [points IH] using (well_founded_induction
    (wf_inverse_image _ _ _ (@List.length Point) lt_wf)).
  intros q Hq. destruct points as [| a rest]; [contradiction |].
  destruct (Point.isSatisfied (Point.update a)) eqn:Hs.
  - destruct rest as [| b rest].
    + rewrite UpdatePointsFacts.sweep_removed_last in Hq by exact Hs. contradiction.
    + rewrite UpdatePointsFacts.sweep_removed in Hq by exact Hs.
      destruct Hq as [<- | Hq].
      * exists b. split; [right; now left | now right].
      * apply IH in Hq; [| simpl; lia].
        destruct Hq as [p [Hin Hp]]. exists p. split; [right; now right | exact Hp].
  - rewrite UpdatePointsFacts.sweep_kept in Hq by exact Hs.
    destruct Hq as [<- | Hq].
    + exists a. split; [now left | now left].
    + apply IH in Hq; [| simpl; lia].
      destruct Hq as [p [Hin Hp]]. exists p. split; [now right | exact Hp].
Qed.

(** *** fillPoints and the tick *)

Lemma createPoint_unsatisfied (points : list Point) (tape : list num)
    (p : Point) (tape' : list num) :
  Mousygons.createPoint points tape = Some (p, tape') -> Point.satisfied p = false.
Proof.
  intro Hrun. apply FillFacts.createPoint_accepts in Hrun.
  destruct Hrun as (rejected & r1 & r2 & r3 & r4 & _ & [_ ->]). reflexivity.
Qed.

Lemma fillPoints_unsatisfied (points : list Point) (tape : list num)
    (points' : list Point) (tape' : list num) :
  Forall unsatisfied points ->
  Mousygons.fillPoints points tape = Some (points', tape') ->
  Forall unsatisfied points'.
Proof.
  intros Hall Hrun. unfold Mousygons.fillPoints in Hrun.
  assert (forall pts tp p tp',
             (List.length pts < Mousygons.MAX_POINTS_ALIVE)%nat ->
             Forall unsatisfied pts ->
             Mousygons.createPoint pts tp = Some (p, tp') ->
             Forall unsatisfied (pts ++ [p])) as Hstep.
  { intros pts tp p tp' _ Hpts Hcreate. apply Forall_app. split; [exact Hpts |].
    constructor; [| constructor]. now apply createPoint_unsatisfied in Hcreate. }
  destruct (FillFacts.fillPoints_loop_invariant (Forall unsatisfied) Hstep _ _ _ Hall Hrun)
    as [Hdone _].
  exact Hdone.
Qed.

(** What a tick does to each field. *)
Lemma update_fields (this : Mousygons.t num) (tape : list num)
    (this' : Mousygons.t num) (tape' : list num) :
  Mousygons.update this tape = Some (this', tape') ->
  exists filled,
    Mousygons.fillPoints (Mousygons.points this) tape = Some (filled, tape')
    /\ Mousygons.points this' = Mousygons.updatePoints filled
    /\ Mousygons.canvas this'
       = Mousygons.canvas this
         ++ Mousygons.clearRect (of_Z 0) (of_Z 0) Mousygons.CANVAS_WIDTH Mousygons.CANVAS_HEIGHT
            :: flat_map Mousygons.drawPoint (Mousygons.points this')
    /\ Mousygons.mousePosition this' = Mousygons.mousePosition this
    /\ Mousygons.mouseCanvas this' = Mousygons.mouseCanvas this.
Proof.
  intro Hrun. unfold Mousygons.update in Hrun.
  cbn [Mousygons.points Mousygons.clearCanvas] in Hrun.
  destruct (Mousygons.fillPoints (Mousygons.points this) tape) as [[filled tape1] |] eqn:Hfill;
    [| discriminate Hrun].
  injection Hrun as <- <-. exists filled.
  cbn [Mousygons.points Mousygons.canvas Mousygons.mousePosition Mousygons.mouseCanvas
       Mousygons.drawPoints Mousygons.with_points Mousygons.clearCanvas].
  rewrite <- app_assoc. now repeat split.
Qed.

Lemma update_unsatisfied (this : Mousygons.t num) (tape : list num)
    (this' : Mousygons.t num) (tape' : list num) :
  Forall unsatisfied (Mousygons.points this) ->
  Mousygons.update this tape = Some (this', tape') ->
  Forall unsatisfied (Mousygons.points this').
Proof.
  intros Hall Hrun. apply update_fields in Hrun.
  destruct Hrun as (filled & Hfill & -> & _).
  rewrite UpdatePointsFacts.updatePoints_sweep. apply sweep_unsatisfied.
  now apply fillPoints_unsatisfied with (1 := Hall) (2 := Hfill).
Qed.

(** *** Runs of events *)

Lemma handler_points (this : Mousygons.t num) (pageX pageY : num) :
  Mousygons.points (Mousygons.mouseMovementHandler this pageX pageY) = Mousygons.points this.
Proof.
  unfold Mousygons.mouseMovementHandler, Mousygons.updateMouseCanvas.
  cbn [Mousygons.mouseCanvas]. now destruct (Mousygons.mouseCanvas this).
Qed.

Lemma handler_canvas (this : Mousygons.t num) (pageX pageY : num) :
  Mousygons.canvas (Mousygons.mouseMovementHandler this pageX pageY) = Mousygons.canvas this.
Proof.
  unfold Mousygons.mouseMovementHandler, Mousygons.updateMouseCanvas.
  cbn [Mousygons.mouseCanvas]. now destruct (Mousygons.mouseCanvas this).
Qed.

(** A property of the points that ticks keep holds after every run. *)
Lemma run_invariant (P : list Point -> Prop) :
  (forall this tape this' tape',
      P (Mousygons.points this) -> Mousygons.update this tape = Some (this', tape') ->
      P (Mousygons.points this')) ->
  forall events this tape this' tape',
    P (Mousygons.points this) ->
    Host.run events this tape = Some (this', tape') ->
    P (Mousygons.points this').
Proof.
  intros Hstep events.
  induction events as [| event rest IH]; intros this tape this' tape' HP Hrun;
    cbn [Host.run] in Hrun.
  - injection Hrun as <- <-. exact HP.
  - destruct event as [| pageX pageY]; cbn [Host.dispatch] in Hrun.
    + destruct (Mousygons.update this tape) as [[this1 tape1] |] eqn:Hup;
        [| discriminate Hrun].
      apply IH with (2 := Hrun). now apply Hstep with (2 := Hup).
    + apply IH with (2 := Hrun). now rewrite handler_points.
Qed.

Lemma update_animation (a b : Mousygons.t num) (tape : list num) :
  Mousygons.points a = Mousygons.points b ->
  Mousygons.canvas a = Mousygons.canvas b ->
  Host.animation (Mousygons.update a tape) = Host.animation (Mousygons.update b tape).
Proof.
  intros Hpoints Hcanvas. unfold Mousygons.update.
  cbn [Mousygons.points Mousygons.clearCanvas]. rewrite Hpoints.
  destruct (Mousygons.fillPoints (Mousygons.points b) tape) as [[filled tape1] |];
    [| reflexivity].
  cbn [Host.animation Mousygons.points Mousygons.canvas Mousygons.drawPoints
       Mousygons.with_points Mousygons.clearCanvas].
  now rewrite Hcanvas.
Qed.

Lemma run_animation (events : list (Host.Event num)) :
  forall (a b : Mousygons.t num) (tape : list num),
    Mousygons.points a = Mousygons.points b ->
    Mousygons.canvas a = Mousygons.canvas b ->
    Host.animation (Host.run events a tape)
    = Host.animation (Mousygons.ticks (Host.tick_count events) b tape).
Proof.
  induction events as [| event rest IH]; intros a b tape Hpoints Hcanvas.
  - cbn [Host.run Host.tick_count Mousygons.ticks Host.animation].
    now rewrite Hpoints, Hcanvas.
  - destruct event as [| pageX pageY];
      cbn [Host.run Host.dispatch Host.tick_count Mousygons.ticks].
    + pose proof (update_animation a b tape Hpoints Hcanvas) as Hstep.
      destruct (Mousygons.update a tape) as [[a1 tape1] |];
        destruct (Mousygons.update b tape) as [[b1 tape2] |];
        cbn [Host.animation] in Hstep; try discriminate Hstep; [| reflexivity].
      injection Hstep as Hp Hc Ht. subst tape2. now apply IH.
    + apply IH; [now rewrite handler_points | now rewrite handler_canvas].
Qed.

Lemma run_placement (events : list (Host.Event num)) :
  forall (this : Mousygons.t num) (tape : list num)
         (this' : Mousygons.t num) (tape' : list num),
    Spec.placement this = Some (Host.style_for (Mousygons.mousePosition this)) ->
    Host.run events this tape = Some (this', tape') ->
    Spec.placement this' = Some (Host.style_for (Mousygons.mousePosition this'))
    /\ Mousygons.mousePosition this'
       = Host.last_move events (Mousygons.mousePosition this).
Proof.
  induction events as [| event rest IH]; intros this tape this' tape' Hsync Hrun;
    cbn [Host.run] in Hrun.
  - injection Hrun as <- <-. now split.
  - destruct event as [| pageX pageY]; cbn [Host.dispatch Host.last_move] in Hrun |- *.
    + destruct (Mousygons.update this tape) as [[this1 tape1] |] eqn:Hup;
        [| discriminate Hrun].
      apply update_fields in Hup.
      destruct Hup as (filled & _ & _ & _ & Hpos & Hel).
      rewrite <- Hpos. apply IH with (2 := Hrun).
      unfold Spec.placement. rewrite Hel, Hpos. exact Hsync.
    + specialize (IH (Mousygons.mouseMovementHandler this pageX pageY) tape this' tape').
      assert (Mousygons.mousePosition (Mousygons.mouseMovementHandler this pageX pageY)
              = {| Mousygons.x := pageX; Mousygons.y := pageY |}) as Hpos.
      { unfold Mousygons.mouseMovementHandler, Mousygons.updateMouseCanvas.
        cbn [Mousygons.mouseCanvas]. now destruct (Mousygons.mouseCanvas this). }
      rewrite Hpos in IH. apply IH; [| exact Hrun].
      unfold Spec.placement in Hsync |- *.
      unfold Mousygons.mouseMovementHandler, Mousygons.updateMouseCanvas.
      cbn [Mousygons.mouseCanvas].
      destruct (Mousygons.mouseCanvas this) as [element |]; [reflexivity | discriminate Hsync].
Qed.

(** *** The canvas *)

Lemma shown_drawings (calls : list (Mousygons.DrawCall num)) :
  Forall Host.drawing calls ->
  forall before, fold_left Host.after_call calls before = before ++ calls.
Proof.
  induction calls as [| call rest IH]; intros Hall before; cbn [fold_left].
  - now rewrite app_nil_r.
  - inversion Hall as [| ? ? Hcall Hrest]; subst.
    rewrite IH by exact Hrest.
    destruct call; cbn [Host.after_call]; try contradiction;
      now rewrite <- app_assoc.
Qed.

Lemma drawPoints_drawings (points : list Point) :
  Forall Host.drawing (flat_map Mousygons.drawPoint points).
Proof.
  induction points as [| p rest IH]; cbn [flat_map]; [constructor |].
  apply Forall_app. split; [| exact IH].
  unfold Mousygons.drawPoint. rewrite hexToRgb_teal.
  repeat (constructor; [exact I |]). constructor.
Qed.

Lemma drawPoints_length (points : list Point) :
  List.length (flat_map Mousygons.drawPoint points) = (4 * List.length points)%nat.
Proof.
  induction points as [| p rest IH]; [reflexivity |].
  cbn [flat_map]. rewrite length_app, IH.
  unfold Mousygons.drawPoint. rewrite hexToRgb_teal. simpl. lia.
Qed.

End WithNumber.
End TickFacts.

(** X5.  [updatePoints] leaves no satisfied point in a collection that
    had none, although it skips points: a point it skips was not
    satisfied before and is not touched.  So no state the ticks and mouse
    moves reach from the constructor's state holds a satisfied point, and
    none is ever drawn. *)
Theorem no_satisfied_point_survives :
  (forall (num : Type) (N : Number num) (points : list (Point.t num)),
      Forall (fun p => Point.satisfied p = false) points ->
      Forall (fun p => Point.satisfied p = false) (Mousygons.updatePoints points))
  /\ (forall (num : Type) (N : Number num) (events : list (Host.Event num))
             (tape : list num) (this' : Mousygons.t num) (tape' : list num),
        Host.run events Host.constructor tape = Some (this', tape') ->
        Forall (fun p => Point.satisfied p = false) (Mousygons.points this')).
Proof.
  split.
  - intros num N points Hall.
    rewrite UpdatePointsFacts.updatePoints_sweep. now apply TickFacts.sweep_unsatisfied.
  - intros num N events tape this' tape' Hrun.
    apply (TickFacts.run_invariant
             (fun points => Forall (fun p => Point.satisfied p = false) points))
      with (3 := Hrun).
    + intros this tp this1 tp1. apply TickFacts.update_unsatisfied.
    + constructor.
Qed.

(** The theorem at two points one call from the threshold, and at a run
    of a tick, a mouse move and a tick. *)
Lemma no_satisfied_point_survives_witness :
  Forall (fun p => Point.satisfied p = false)
    (Mousygons.updatePoints
       [Point.Build 10 10 4 254 1 false; Point.Build 10 23 2 254 1 false]%float)
  /\ match Host.run [Host.Tick; Host.MouseMove 100 100; Host.Tick]%float
             Host.constructor Aux.tape6 with
     | Some (this', _) =>
         Forall (fun p => Point.satisfied p = false) (Mousygons.points this')
     | None => False
     end.
Proof.
  split.
  - apply (proj1 no_satisfied_point_survives float binary64).
    repeat (constructor; [reflexivity |]). constructor.
  - destruct (Host.run [Host.Tick; Host.MouseMove 100 100; Host.Tick]%float
                Host.constructor Aux.tape6) as [[this' tape'] |] eqn:Hrun.
    + exact (proj2 no_satisfied_point_survives float binary64 _ _ _ _ Hrun).
    + vm_compute in Hrun. discriminate Hrun.
Defined.

(** X6.  When no point reaches the threshold in a pass, [updatePoints]
    calls [update()] once on every point and removes none, which is what
    updating every point and removing the satisfied ones gives.  In every
    pass, each point of the result is a point of the collection, updated
    once or (behind a removed one) not at all. *)
Theorem updatePoints_without_removal
    (num : Type) (N : Number num) (points : list (Point.t num)) :
  (Forall (fun p => Point.satisfied (Point.update p) = false) points ->
   Mousygons.updatePoints points = map Point.update points
   /\ Mousygons.updatePoints points = Spec.advance_and_evict points)
  /\ (forall q, In q (Mousygons.updatePoints points) ->
                exists p, In p points /\ (q = Point.update p \/ q = p)).
Proof.
  rewrite UpdatePointsFacts.updatePoints_sweep. split.
  - intro Hall. split.
    + now apply TickFacts.sweep_nothing_removed.
    + rewrite TickFacts.advance_and_evict_nothing_removed by exact Hall.
      now apply TickFacts.sweep_nothing_removed.
  - apply TickFacts.sweep_provenance.
Qed.

(** The theorem at the six fresh points placed from [tape6]. *)
Lemma updatePoints_without_removal_witness :
  Mousygons.updatePoints Aux.placed6 = map Point.update Aux.placed6
  /\ Mousygons.updatePoints Aux.placed6 = Spec.advance_and_evict Aux.placed6.
Proof.
  apply (proj1 (@updatePoints_without_removal float binary64 Aux.placed6)).
  repeat (constructor; [reflexivity |]). constructor.
Defined.

(** X7.  After a tick the calls made on the context since the last
    [clearRect] are the drawing of the points now in the collection, four
    calls for each in the order of the collection: the tick clears before
    it draws, and what was drawn for removed points or in earlier ticks is
    cleared. *)
Theorem tick_shows_current_points
    (num : Type) (N : Number num) (this : Mousygons.t num) (tape : list num)
    (this' : Mousygons.t num) (tape' : list num) :
  Mousygons.update this tape = Some (this', tape') ->
  Host.shown (Mousygons.canvas this')
  = flat_map Mousygons.drawPoint (Mousygons.points this')
  /\ List.length (Host.shown (Mousygons.canvas this'))
     = (4 * List.length (Mousygons.points this'))%nat.
Proof.
  intro Hrun. apply TickFacts.update_fields in Hrun.
  destruct Hrun as (filled & _ & _ & Hcanvas & _).
  assert (Host.shown (Mousygons.canvas this')
          = flat_map Mousygons.drawPoint (Mousygons.points this')) as Hshown.
  { unfold Host.shown. rewrite Hcanvas, fold_left_app. cbn [fold_left Host.after_call].
    rewrite TickFacts.shown_drawings by apply TickFacts.drawPoints_drawings.
    reflexivity. }
  split; [exact Hshown |]. rewrite Hshown. apply TickFacts.drawPoints_length.
Qed.

(** The theorem at the second tick from the constructor's state. *)
Lemma tick_shows_current_points_witness :
  match Mousygons.ticks 1 Mousygons.initial Aux.tape6 with
  | Some (this, tape) =>
      match Mousygons.update this tape with
      | Some (this', _) =>
          Host.shown (Mousygons.canvas this')
          = flat_map Mousygons.drawPoint (Mousygons.points this')
          /\ List.length (Host.shown (Mousygons.canvas this'))
             = (4 * List.length (Mousygons.points this'))%nat
      | None => False
      end
  | None => False
  end.
Proof.
  destruct (Mousygons.ticks 1 Mousygons.initial Aux.tape6) as [[this tape] |] eqn:Hfirst.
  - destruct (Mousygons.update this tape) as [[this' tape'] |] eqn:Hrun.
    + exact (@tick_shows_current_points float binary64 this tape this' tape' Hrun).
    + vm_compute in Hfirst. injection Hfirst as <- <-.
      vm_compute in Hrun. discriminate Hrun.
  - vm_compute in Hfirst. discriminate Hfirst.
Defined.

(** X8.  Mouse moves and ticks do not interfere.  A mouse move before a
    tick gives the state the same move gives after the tick; and the
    points, the drawing calls and the random numbers left after any run
    of ticks and mouse moves are those of the ticks alone. *)
Theorem mouse_moves_do_not_affect_animation
    (num : Type) (N : Number num) (this : Mousygons.t num) (tape : list num) :
  (forall pageX pageY : num,
      Mousygons.update (Mousygons.mouseMovementHandler this pageX pageY) tape
      = match Mousygons.update this tape with
        | Some (this', tape') =>
            Some (Mousygons.mouseMovementHandler this' pageX pageY, tape')
        | None => None
        end)
  /\ (forall events : list (Host.Event num),
        Host.animation (Host.run events this tape)
        = Host.animation (Mousygons.ticks (Host.tick_count events) this tape)).
Proof.
  split.
  - intros pageX pageY.
    unfold Mousygons.update, Mousygons.mouseMovementHandler, Mousygons.updateMouseCanvas.
    cbn [Mousygons.mouseCanvas].
    destruct (Mousygons.mouseCanvas this) as [element |] eqn:Hel;
      cbn [Mousygons.points Mousygons.clearCanvas];
      destruct (Mousygons.fillPoints (Mousygons.points this) tape) as [[filled tape1] |];
      try reflexivity;
      cbn [Mousygons.points Mousygons.canvas Mousygons.mousePosition Mousygons.mouseCanvas
           Mousygons.drawPoints Mousygons.with_points Mousygons.clearCanvas];
      rewrite Hel; reflexivity.
  - intro events. now apply TickFacts.run_animation.
Qed.

(** X9.  The surface follows the mouse: after any run of ticks and mouse
    moves from the constructor's state, the stored position is that of
    the last mouse move ((0, 0) before the first) and the style of the
    element is the one computed from it.  A mouse move overwrites the one
    before it. *)
Theorem surface_follows_last_mouse_move (num : Type) (N : Number num) :
  (forall (events : list (Host.Event num)) (tape : list num)
          (this' : Mousygons.t num) (tape' : list num),
      Host.run events Host.constructor tape = Some (this', tape') ->
      Mousygons.mousePosition this'
      = Host.last_move events {| Mousygons.x := of_Z 0; Mousygons.y := of_Z 0 |}
      /\ Spec.placement this'
         = Some (Host.style_for (Mousygons.mousePosition this')))
  /\ (forall (this : Mousygons.t num) (x1 y1 x2 y2 : num),
        Mousygons.mouseMovementHandler (Mousygons.mouseMovementHandler this x1 y1) x2 y2
        = Mousygons.mouseMovementHandler this x2 y2).
Proof.
  split.
  - intros events tape this' tape' Hrun.
    destruct (@TickFacts.run_placement num N events Host.constructor tape this' tape'
                eq_refl Hrun) as [Hsync Hpos].
    split; [exact Hpos | exact Hsync].
  - intros this x1 y1 x2 y2.
    unfold Mousygons.mouseMovementHandler, Mousygons.updateMouseCanvas.
    cbn [Mousygons.mouseCanvas].
    now destruct (Mousygons.mouseCanvas this).
Qed.

(** The theorem at a run of two mouse moves around a tick. *)
Lemma surface_follows_last_mouse_move_witness :
  match Host.run [Host.MouseMove 100 100; Host.Tick; Host.MouseMove 300 200]%float
          Host.constructor Aux.tape6 with
  | Some (this', _) =>
      Mousygons.mousePosition this' = {| Mousygons.x := 300; Mousygons.y := 200 |}%float
      /\ Spec.placement this' = Some (Host.style_for (Mousygons.mousePosition this'))
  | None => False
  end.
Proof.
  destruct (Host.run [Host.MouseMove 100 100; Host.Tick; Host.MouseMove 300 200]%float
              Host.constructor Aux.tape6) as [[this' tape'] |] eqn:Hrun.
  - exact (proj1 (@surface_follows_last_mouse_move float binary64) _ _ _ _ Hrun).
  - vm_compute in Hrun. discriminate Hrun.
Defined.

(** ** More of the exact arithmetic *)

Module ExactMore.

Local Open Scope R_scope.






(** *** The life of a point *)



End ExactMore.






(** ** The passes of createPoint *)

Module SearchFacts.
Section WithNumber.
Context {num : Type} {N : Number num}.

Local Abbreviation Point := (Point.t num).

(** One pass of the loop. *)
Lemma createPoint_pass (points : list Point) (r1 r2 r3 : num) (rest : list num) :
  Mousygons.createPoint points (r1 :: r2 :: r3 :: rest)
  = if Search.in_conflict points r1 r2 r3
    then Mousygons.createPoint points rest
    else match rest with
         | r4 :: tape =>
             Some (Point.new
                     (Mousygons.choosePositionX (Mousygons.chooseDimensions r1) r2)
                     (Mousygons.choosePositionY (Mousygons.chooseDimensions r1) r3)
                     (Mousygons.chooseDimensions r1)
                     (Mousygons.randomFloatBetween Mousygons.FADE_MIN Mousygons.FADE_MAX r4),
                   tape)
         | [] => None
         end.
Proof.
  unfold Mousygons.createPoint, Search.in_conflict.
  cbn [Mousygons.createPoint_loop].
  now destruct (existsb _ points).
Qed.

Lemma createPoint_skips_rejected (points : list Point) (rejected tape : list num) :
  Search.all_rejected points rejected ->
  Mousygons.createPoint points (rejected ++ tape) = Mousygons.createPoint points tape.
Proof.
  intro Hrej. induction Hrej as [| r1 r2 r3 rest Hconflict Hrest IH]; [reflexivity |].
  cbn [app]. rewrite createPoint_pass, Hconflict. exact IH.
Qed.

Lemma createPoint_rejected_only (points : list Point) (starved : list num) :
  Search.all_rejected points starved -> Mousygons.createPoint points starved = None.
Proof.
  intro Hrej. rewrite <- (app_nil_r starved).
  now rewrite createPoint_skips_rejected.
Qed.

Lemma same_pass_rejected (points : list Point) (r1 r2 r3 : num) (n : nat) :
  Search.in_conflict points r1 r2 r3 = true ->
  Search.all_rejected points (Search.same_pass n r1 r2 r3).
Proof.
  intro Hconflict. induction n as [| n IH]; cbn [Search.same_pass].
  - constructor.
  - now constructor.
Qed.

Lemma createPoint_first_free (points : list Point) :
  forall (tape : list num) (p : Point) (tape' : list num),
    Mousygons.createPoint points tape = Some (p, tape') ->
    exists rejected r1 r2 r3 r4,
      tape = rejected ++ r1 :: r2 :: r3 :: r4 :: tape'
      /\ Search.all_rejected points rejected
      /\ Search.in_conflict points r1 r2 r3 = false
      /\ Aux.accepted points r1 r2 r3 r4 p.
Proof.
  intro tape. induction tape as [tape IH] using FillFacts.tape_ind.
  intros p tape' Hrun.
  destruct tape as [| r1 [| r2 [| r3 tape3]]]; try discriminate Hrun.
  rewrite createPoint_pass in Hrun.
  destruct (Search.in_conflict points r1 r2 r3) eqn:Hconflict.
  - apply IH in Hrun; [| simpl; lia].
    destruct Hrun as (rejected & q1 & q2 & q3 & q4 & Htape & Hrej & Hfree & Hacc).
    exists (r1 :: r2 :: r3 :: rejected), q1, q2, q3, q4.
    split; [now rewrite Htape |]. split; [now constructor |]. now split.
  - destruct tape3 as [| r4 tape4]; [discriminate Hrun |].
    injection Hrun as <- <-.
    exists [], r1, r2, r3, r4.
    split; [reflexivity |]. split; [constructor |]. split; [exact Hconflict |].
    unfold Aux.accepted. split; [exact Hconflict | reflexivity].
Qed.


End WithNumber.
End SearchFacts.

(** X13.  [createPoint] returns at the first pass whose candidate is in
    conflict with no point of the collection: the passes before it are
    all rejected and take three random numbers each, the accepted one
    takes four.  There is no bound on the number of passes: when the same
    three numbers come back and their candidate is in conflict, the loop
    has not returned after any number of passes. *)
Theorem createPoint_returns_at_first_free_pass
    (num : Type) (N : Number num) (points : list (Point.t num)) :
  (forall rejected tape : list num,
      Search.all_rejected points rejected ->
      Mousygons.createPoint points (rejected ++ tape) = Mousygons.createPoint points tape)
  /\ (forall (tape : list num) (p : Point.t num) (tape' : list num),
        Mousygons.createPoint points tape = Some (p, tape') ->
        exists rejected r1 r2 r3 r4,
          tape = rejected ++ r1 :: r2 :: r3 :: r4 :: tape'
          /\ Search.all_rejected points rejected
          /\ Search.in_conflict points r1 r2 r3 = false
          /\ Aux.accepted points r1 r2 r3 r4 p)
  /\ (forall (r1 r2 r3 : num) (n : nat),
        Search.in_conflict points r1 r2 r3 = true ->
        Mousygons.createPoint points (Search.same_pass n r1 r2 r3) = None).
Proof.
  split; [| split].
  - intros rejected tape. apply SearchFacts.createPoint_skips_rejected.
  - apply SearchFacts.createPoint_first_free.
  - intros r1 r2 r3 n Hconflict. apply SearchFacts.createPoint_rejected_only.
    now apply SearchFacts.same_pass_rejected.
Qed.

(** The theorem at a point at (2, 2) and the random number 0, whose
    candidate is (2, 2) again. *)
Lemma createPoint_returns_at_first_free_pass_witness :
  (Mousygons.createPoint [Point.new 2 2 2 1] ([0; 0; 0; 0; 0; 0] ++ [0; 0.9375; 0.9375; 0.5])
   = Mousygons.createPoint [Point.new 2 2 2 1] [0; 0.9375; 0.9375; 0.5]
   /\ Mousygons.createPoint [Point.new 2 2 2 1] (Search.same_pass 1000 0 0 0) = None)%float.
Proof.
  split.
  - apply (proj1 (@createPoint_returns_at_first_free_pass float binary64
                    [Point.new 2 2 2 1]%float)).
    repeat (constructor; [vm_compute; reflexivity |]). constructor.
  - apply (proj2 (proj2 (@createPoint_returns_at_first_free_pass float binary64
                           [Point.new 2 2 2 1]%float))).
    vm_compute. reflexivity.
Defined.

(** ** The shape of the states in exact arithmetic *)

Module ShapeFacts.

Local Open Scope R_scope.










End ShapeFacts.


Module ShapeExamples.



End ShapeExamples.


(** ** Room for one more point *)

Module ProgressFacts.

Local Open Scope R_scope.

(** A point in conflict with a candidate of size 2 is within 12 of it in
    both directions. *)
Lemma conflict_close (cx cy : R) (p : Point.t R) :
  Mousygons.conflicts cx cy 2 p = true ->
  -12 <= Point.x p - cx <= 12 /\ -12 <= Point.y p - cy <= 12.
Proof.
  unfold Mousygons.conflicts, Point.distanceToCoords. cbn [le sub add mul Math_sqrt of_Z exact].
  intro Hle. apply ExactFacts.leb_true in Hle.
  set (a := Point.x p - cx) in *. set (b := Point.y p - cy) in *.
  assert (0 <= a * a + b * b) as Hsum by nra.
  pose proof (sqrt_pos (a * a + b * b)) as Hpos.
  pose proof (sqrt_sqrt (a * a + b * b) Hsum) as Hsq.
  assert (a * a + b * b <= 144) as Hbound by nra.
  split; split; nra.
Qed.

Lemma cell_unique (p : Point.t R) (i j i' j' : Z) :
  Mousygons.conflicts (Search.cell_coordinate i) (Search.cell_coordinate j) 2 p = true ->
  Mousygons.conflicts (Search.cell_coordinate i') (Search.cell_coordinate j') 2 p = true ->
  (i, j) = (i', j').
Proof.
  intros H1 H2. apply conflict_close in H1, H2.
  destruct H1 as [Hx1 Hy1]. destruct H2 as [Hx2 Hy2].
  unfold Search.cell_coordinate in *.
  assert (IZR (2 + 28 * i) - IZR (2 + 28 * i') <= 24
          /\ IZR (2 + 28 * i') - IZR (2 + 28 * i) <= 24) as [Hi1 Hi2] by lra.
  assert (IZR (2 + 28 * j) - IZR (2 + 28 * j') <= 24
          /\ IZR (2 + 28 * j') - IZR (2 + 28 * j) <= 24) as [Hj1 Hj2] by lra.
  rewrite <- minus_IZR in Hi1, Hi2, Hj1, Hj2.
  apply le_IZR in Hi1, Hi2, Hj1, Hj2.
  f_equal; lia.
Qed.

(** Pigeon holes: a list without repetition, every element of which is
    related to an element of a second list that is related to no other,
    is no longer than the second list. *)
Lemma injective_cover (A B : Type) (rel : A -> B -> Prop) (l : list A) :
  (forall a a' b, rel a b -> rel a' b -> a = a') ->
  NoDup l ->
  forall m : list B,
    (forall a, In a l -> exists b, In b m /\ rel a b) ->
    (List.length l <= List.length m)%nat.
Proof.
  intros Hinj Hnodup. induction Hnodup as [| a l Hnotin Hnodup IH]; intros m Hcover.
  - simpl. lia.
  - destruct (Hcover a (or_introl eq_refl)) as [b [Hb Hab]].
    apply in_split in Hb. destruct Hb as [m1 [m2 ->]].
    assert (List.length l <= List.length (m1 ++ m2))%nat as Hlen.
    { apply IH. intros a' Ha'.
      destruct (Hcover a' (or_intror Ha')) as [b' [Hb' Hab']].
      exists b'. split; [| exact Hab'].
      apply in_app_or in Hb'. apply in_or_app.
      destruct Hb' as [Hb' | [Hb' | Hb']]; [now left | | now right].
      subst b'. elim Hnotin. now rewrite (Hinj a a' b Hab Hab'). }
    rewrite length_app in *. simpl. lia.
Qed.

Lemma forallb_false (A : Type) (f : A -> bool) (l : list A) :
  forallb f l = false -> exists a, In a l /\ f a = false.
Proof.
  induction l as [| a l IH]; [discriminate |]. cbn [forallb].
  destruct (f a) eqn:Hfa.
  - intro Hrest. destruct (IH Hrest) as [a' [Hin Hfa']].
    exists a'. split; [now right | exact Hfa'].
  - intros _. exists a. split; [now left | exact Hfa].
Qed.

Lemma cells_NoDup : NoDup Search.cells.
Proof.
  unfold Search.cells.
  repeat (constructor; [simpl; intuition congruence |]). constructor.
Qed.

Lemma free_cell (points : list (Point.t R)) :
  (List.length points <= 8)%nat ->
  exists cell, In cell Search.cells /\ Search.cell_blocked points cell = false.
Proof.
  intro Hlen.
  destruct (forallb (Search.cell_blocked points) Search.cells) eqn:Hall;
    [| now apply forallb_false].
  exfalso. rewrite forallb_forall in Hall.
  assert (List.length Search.cells <= List.length points)%nat as Hcover.
  { apply (@injective_cover (Z * Z) (Point.t R)
             (fun cell p => Mousygons.conflicts (Search.cell_coordinate (fst cell))
                              (Search.cell_coordinate (snd cell)) 2 p = true)).
    - intros [i j] [i' j'] p. apply cell_unique.
    - apply cells_NoDup.
    - intros cell Hcell. apply Hall in Hcell.
      unfold Search.cell_blocked in Hcell. apply existsb_exists in Hcell.
      destruct Hcell as [p [Hin Hp]]. now exists p. }
  simpl in Hcover. lia.
Qed.

Lemma chooseDimensions_0 : Mousygons.chooseDimensions 0 = 2.
Proof.
  unfold Mousygons.chooseDimensions. rewrite RandomFacts.exact_randomIntBetween.
  rewrite (Zfloor_eq 2); [reflexivity | simpl; lra].
Qed.

Lemma cell_random_spec (i : Z) :
  (0 <= i <= 2)%Z ->
  Spec.unit_interval (Search.cell_random i)
  /\ Mousygons.randomIntBetween 2 (64 - 2 / 2) (Search.cell_random i)
     = Search.cell_coordinate i.
Proof.
  intro Hi. unfold Search.cell_random, Search.cell_coordinate, Spec.unit_interval.
  assert (0 <= IZR (28 * i) <= 56) as Hr by (split; apply IZR_le; lia).
  split; [lra |].
  rewrite RandomFacts.exact_randomIntBetween. f_equal. apply Zfloor_eq.
  rewrite plus_IZR. simpl. lra.
Qed.

Lemma cells_range (cell : Z * Z) :
  In cell Search.cells -> (0 <= fst cell <= 2)%Z /\ (0 <= snd cell <= 2)%Z.
Proof.
  unfold Search.cells. simpl.
  intros [<- | [<- | [<- | [<- | [<- | [<- | [<- | [<- | [<- | []]]]]]]]]]; simpl; lia.
Qed.

Lemma free_pass (points : list (Point.t R)) :
  (List.length points <= 8)%nat ->
  exists r2 r3 : R,
    Spec.unit_interval r2 /\ Spec.unit_interval r3
    /\ Search.in_conflict points 0 r2 r3 = false.
Proof.
  intro Hlen. destruct (free_cell points Hlen) as [[i j] [Hcell Hfree]].
  apply cells_range in Hcell. cbn [fst snd] in Hcell. destruct Hcell as [Hi Hj].
  destruct (cell_random_spec Hi) as [Hri Hxi].
  destruct (cell_random_spec Hj) as [Hrj Hxj].
  exists (Search.cell_random i), (Search.cell_random j).
  split; [exact Hri |]. split; [exact Hrj |].
  unfold Search.in_conflict, Mousygons.choosePositionX, Mousygons.choosePositionY.
  rewrite chooseDimensions_0.
  unfold Mousygons.CANVAS_WIDTH, Mousygons.CANVAS_HEIGHT. cbn [sub div of_Z exact].
  rewrite Hxi, Hxj. exact Hfree.
Qed.

Lemma fillPoints_loop_can_complete (fuel : nat) :
  forall points : list (Point.t R),
    (Mousygons.MAX_POINTS_ALIVE <= List.length points + fuel)%nat ->
    exists (tape : list R) (filled : list (Point.t R)),
      Forall Spec.unit_interval tape
      /\ Mousygons.fillPoints_loop fuel points tape = Some (filled, []).
Proof.
  induction fuel as [| fuel IH]; intros points Hfuel.
  - exists [], points. split; [constructor |]. cbn [Mousygons.fillPoints_loop].
    destruct (Nat.ltb_spec (List.length points) Mousygons.MAX_POINTS_ALIVE);
      [lia | reflexivity].
  - destruct (Nat.ltb_spec (List.length points) Mousygons.MAX_POINTS_ALIVE) as [Hlt | Hge].
    + assert (List.length points <= 8)%nat as Hroom
        by (unfold Mousygons.MAX_POINTS_ALIVE in Hlt; lia).
      destruct (free_pass points Hroom) as (r2 & r3 & Hr2 & Hr3 & Hfree).
      pose proof (SearchFacts.createPoint_pass points 0 r2 r3 (0 :: nil)) as Hpass.
      rewrite Hfree in Hpass.
      match type of Hpass with _ = Some (?p, _) => set (placed := p) in * end.
      destruct (IH (points ++ [placed])) as (tape & filled & Htape & Hrun).
      { rewrite length_app. simpl. lia. }
      exists (0 :: r2 :: r3 :: 0 :: tape), filled. split.
      * assert (Spec.unit_interval 0) as H0 by (unfold Spec.unit_interval; lra).
        repeat (constructor; [assumption |]). exact Htape.
      * cbn [Mousygons.fillPoints_loop].
        destruct (Nat.ltb_spec (List.length points) Mousygons.MAX_POINTS_ALIVE); [| lia].
        rewrite SearchFacts.createPoint_pass, Hfree. exact Hrun.
    + exists [], points. split; [constructor |]. cbn [Mousygons.fillPoints_loop].
      destruct (Nat.ltb_spec (List.length points) Mousygons.MAX_POINTS_ALIVE);
        [lia | reflexivity].
Qed.

End ProgressFacts.

(** X15.  In exact arithmetic the placement search always has room: for
    every collection of at most eight points, wherever they are, there
    are random numbers in [0, 1) with which [createPoint] accepts its
    first candidate; so for every state there are random numbers in
    [0, 1) with which [fillPoints] completes and the tick returns, using
    all of them. *)
Theorem placement_search_has_room :
  (forall points : list (Point.t R),
      (List.length points <= 8)%nat ->
      exists r2 r3 : R,
        Spec.unit_interval r2 /\ Spec.unit_interval r3
        /\ forall (r4 : R) (tape : list R),
             exists p, Mousygons.createPoint points (0%R :: r2 :: r3 :: r4 :: tape)
                       = Some (p, tape))
  /\ (forall this : Mousygons.t R,
        exists (tape : list R) (this' : Mousygons.t R),
          Forall Spec.unit_interval tape
          /\ Mousygons.update this tape = Some (this', [])).
Proof.
  split.
  - intros points Hlen.
    destruct (ProgressFacts.free_pass points Hlen) as (r2 & r3 & Hr2 & Hr3 & Hfree).
    exists r2, r3. split; [exact Hr2 |]. split; [exact Hr3 |].
    intros r4 tape. rewrite SearchFacts.createPoint_pass, Hfree. now eexists.
  - intro this.
    destruct (@ProgressFacts.fillPoints_loop_can_complete Mousygons.MAX_POINTS_ALIVE
                (Mousygons.points this)) as (tape & filled & Htape & Hrun); [lia |].
    exists tape. unfold Mousygons.update. cbn [Mousygons.points Mousygons.clearCanvas].
    unfold Mousygons.fillPoints. rewrite Hrun. eexists. split; [exact Htape | reflexivity].
Qed.

(** The theorem at the first five of the six points of [six_points]. *)
Lemma placement_search_has_room_witness :
  exists r2 r3 : R,
    Spec.unit_interval r2 /\ Spec.unit_interval r3
    /\ forall (r4 : R) (tape : list R),
         exists p,
           Mousygons.createPoint (firstn 5 (Mousygons.points Search.six_points))
             (0%R :: r2 :: r3 :: r4 :: tape)
           = Some (p, tape).
Proof.
  apply (proj1 placement_search_has_room). simpl. lia.
Defined.

(** ** The colour components *)

Module HexMore.

Local Open Scope string_scope.

Lemma class_hex_upper (c : ascii) : Hex.class_hex (Aux.upper c) = Hex.class_hex c.
Proof. destruct c as [[] [] [] [] [] [] [] []]; reflexivity. Qed.

Lemma digit_upper (c : ascii) :
  Hex.class_hex c = true -> Hex.digit (Aux.upper c) = Hex.digit c.
Proof.
  destruct c as [[] [] [] [] [] [] [] []]; intro H; try discriminate H; reflexivity.
Qed.

Lemma digit_range (c : ascii) :
  Hex.class_hex c = true -> (0 <= Hex.digit c <= 15)%Z.
Proof.
  destruct c as [[] [] [] [] [] [] [] []]; intro H; try discriminate H;
    vm_compute; split; discriminate.
Qed.

Lemma upper_hash (c : ascii) : Ascii.eqb (Aux.upper c) "#" = Ascii.eqb c "#".
Proof. destruct c as [[] [] [] [] [] [] [] []]; reflexivity. Qed.

Lemma byte_of_range (hi lo : ascii) :
  Hex.class_hex hi = true -> Hex.class_hex lo = true ->
  (0 <= Aux.byte_of hi lo <= 255)%Z.
Proof.
  intros Hhi Hlo. apply digit_range in Hhi, Hlo. unfold Aux.byte_of. lia.
Qed.

Lemma parseInt16_pair (hi lo : ascii) :
  Hex.parseInt16 (String hi (String lo "")) = Aux.byte_of hi lo.
Proof.
  unfold Hex.parseInt16, Aux.byte_of. cbn [Hex.parseInt16_from]. lia.
Qed.

Lemma groups_six (a b c d e f : ascii) :
  Hex.class_hex a = true -> Hex.class_hex b = true -> Hex.class_hex c = true ->
  Hex.class_hex d = true -> Hex.class_hex e = true -> Hex.class_hex f = true ->
  Hex.groups (Aux.six a b c d e f)
  = Some (String a (String b ""), String c (String d ""), String e (String f "")).
Proof.
  intros Ha Hb Hc Hd He Hf. unfold Hex.groups, Aux.six.
  now rewrite (HexFacts.group_hex a b _ Ha Hb), (HexFacts.group_hex c d _ Hc Hd),
    (HexFacts.group_hex e f _ He Hf).
Qed.

Lemma groups_shape (s g1 g2 g3 : string) :
  Hex.groups s = Some (g1, g2, g3) ->
  exists a b c d e f,
    s = Aux.six a b c d e f
    /\ Hex.class_hex a = true /\ Hex.class_hex b = true /\ Hex.class_hex c = true
    /\ Hex.class_hex d = true /\ Hex.class_hex e = true /\ Hex.class_hex f = true.
Proof.
  intro Hr. apply HexFacts.six_hex_digits_spec, HexFacts.groups_some.
  exists (g1, g2, g3). exact Hr.
Qed.

Lemma exec_shape (s : string) (r : string * string * string) :
  Hex.exec s = Some r ->
  exists a b c d e f,
    (s = Aux.six a b c d e f \/ s = String "#" (Aux.six a b c d e f))
    /\ r = (String a (String b ""), String c (String d ""), String e (String f ""))
    /\ Hex.class_hex a = true /\ Hex.class_hex b = true /\ Hex.class_hex c = true
    /\ Hex.class_hex d = true /\ Hex.class_hex e = true /\ Hex.class_hex f = true.
Proof.
  destruct r as [[g1 g2] g3]. destruct s as [| x rest].
  - discriminate.
  - rewrite HexFacts.exec_cons. destruct (Ascii.eqb_spec x "#") as [-> | Hne].
    + rewrite HexFacts.groups_hash.
      destruct (Hex.groups rest) as [[[h1 h2] h3] |] eqn:Hrest; [| discriminate].
      intro Heq. injection Heq as -> -> ->.
      destruct (groups_shape _ Hrest) as (a & b & c & d & e & f & -> & Hall).
      exists a, b, c, d, e, f. split; [now right |].
      destruct Hall as (Ha & Hb & Hc & Hd & He & Hf).
      rewrite (groups_six a b c d e f Ha Hb Hc Hd He Hf) in Hrest. injection Hrest as <- <- <-.
      now repeat split.
    + intro Hs.
      destruct (groups_shape _ Hs) as (a & b & c & d & e & f & Heq & Hall).
      exists a, b, c, d, e, f. split; [now left |].
      destruct Hall as (Ha & Hb & Hc & Hd & He & Hf).
      rewrite Heq, (groups_six a b c d e f Ha Hb Hc Hd He Hf) in Hs. injection Hs as <- <- <-.
      now repeat split.
Qed.

Lemma exec_six (a b c d e f : ascii) :
  Hex.class_hex a = true -> Hex.class_hex b = true -> Hex.class_hex c = true ->
  Hex.class_hex d = true -> Hex.class_hex e = true -> Hex.class_hex f = true ->
  Hex.exec (Aux.six a b c d e f)
  = Some (String a (String b ""), String c (String d ""), String e (String f ""))
  /\ Hex.exec (String "#" (Aux.six a b c d e f))
     = Some (String a (String b ""), String c (String d ""), String e (String f "")).
Proof.
  intros Ha Hb Hc Hd He Hf. pose proof (groups_six a b c d e f Ha Hb Hc Hd He Hf) as Hg. split.
  - unfold Aux.six in *. rewrite HexFacts.exec_cons.
    destruct (Ascii.eqb_spec a "#") as [-> | _]; [discriminate Ha | exact Hg].
  - rewrite HexFacts.exec_cons. cbn [Ascii.eqb Bool.eqb]. now rewrite Hg.
Qed.

Lemma group_upper (s : string) :
  Hex.group (Aux.upper_string s)
  = match Hex.group s with
    | Some (g, rest) => Some (Aux.upper_string g, Aux.upper_string rest)
    | None => None
    end.
Proof.
  destruct s as [| a [| b rest]]; try reflexivity.
  cbn [Aux.upper_string Hex.group]. rewrite !class_hex_upper.
  now destruct (Hex.class_hex a && Hex.class_hex b).
Qed.

Lemma groups_upper (s : string) :
  Hex.groups (Aux.upper_string s)
  = match Hex.groups s with
    | Some (g1, g2, g3) =>
        Some (Aux.upper_string g1, Aux.upper_string g2, Aux.upper_string g3)
    | None => None
    end.
Proof.
  unfold Hex.groups. rewrite group_upper.
  destruct (Hex.group s) as [[g1 s1] |]; [| reflexivity]. rewrite group_upper.
  destruct (Hex.group s1) as [[g2 s2] |]; [| reflexivity]. rewrite group_upper.
  destruct (Hex.group s2) as [[g3 s3] |]; [| reflexivity].
  now destruct s3.
Qed.

Lemma exec_upper (s : string) :
  Hex.exec (Aux.upper_string s)
  = match Hex.exec s with
    | Some (g1, g2, g3) =>
        Some (Aux.upper_string g1, Aux.upper_string g2, Aux.upper_string g3)
    | None => None
    end.
Proof.
  destruct s as [| a rest]; [reflexivity |].
  cbn [Aux.upper_string]. rewrite !HexFacts.exec_cons, upper_hash.
  change (String (Aux.upper a) (Aux.upper_string rest))
    with (Aux.upper_string (String a rest)).
  destruct (Ascii.eqb a "#").
  - rewrite groups_upper. destruct (Hex.groups rest) as [[[g1 g2] g3] |]; [reflexivity |].
    apply groups_upper.
  - apply groups_upper.
Qed.

End HexMore.

(** X16.  What [hexToRgb] returns: whenever it returns a colour, the
    string is six hexadecimal digits, with or without a leading ['#'],
    and the three components are the integers the three pairs of digits
    stand for, each between 0 and 255; every such string gives that
    colour, with and without the ['#']; and the result does not depend on
    the case of the letters. *)
Theorem hexToRgb_components (num : Type) (N : Number num) :
  (forall (hex : string) (rgb : Mousygons.RGB num),
      Mousygons.hexToRgb hex = Some rgb ->
      exists a b c d e f : ascii,
        (hex = Aux.six a b c d e f \/ hex = String "#" (Aux.six a b c d e f))
        /\ rgb = {| Mousygons.r := of_Z (Aux.byte_of a b);
                    Mousygons.g := of_Z (Aux.byte_of c d);
                    Mousygons.b := of_Z (Aux.byte_of e f) |}
        /\ (0 <= Aux.byte_of a b <= 255)%Z
        /\ (0 <= Aux.byte_of c d <= 255)%Z
        /\ (0 <= Aux.byte_of e f <= 255)%Z)
  /\ (forall a b c d e f : ascii,
        Forall Spec.hex_digit [a; b; c; d; e; f] ->
        Mousygons.hexToRgb (Aux.six a b c d e f)
        = Some {| Mousygons.r := of_Z (Aux.byte_of a b);
                  Mousygons.g := of_Z (Aux.byte_of c d);
                  Mousygons.b := of_Z (Aux.byte_of e f) |}
        /\ Mousygons.hexToRgb (String "#" (Aux.six a b c d e f))
           = Mousygons.hexToRgb (Aux.six a b c d e f))
  /\ (forall hex : string,
        @Mousygons.hexToRgb num N (Aux.upper_string hex) = Mousygons.hexToRgb hex).
Proof.
  split; [| split].
  - intros hex rgb. unfold Mousygons.hexToRgb.
    destruct (Hex.exec hex) as [[[g1 g2] g3] |] eqn:Hexec; [| discriminate].
    destruct (HexMore.exec_shape _ Hexec)
      as (a & b & c & d & e & f & Hhex & Hr & Ha & Hb & Hc & Hd & He & Hf).
    injection Hr as -> -> ->. rewrite !HexMore.parseInt16_pair.
    intro Heq. injection Heq as <-.
    exists a, b, c, d, e, f. split; [exact Hhex |]. split; [reflexivity |].
    now repeat split; apply HexMore.byte_of_range.
  - intros a b c d e f Hall.
    repeat match goal with
           | H : Forall _ (_ :: _) |- _ => inversion H; clear H; subst
           end.
    rewrite <- !HexFacts.class_hex_spec in *.
    match goal with
    | Ha : Hex.class_hex a = true, Hb : Hex.class_hex b = true,
      Hc : Hex.class_hex c = true, Hd : Hex.class_hex d = true,
      He : Hex.class_hex e = true, Hf : Hex.class_hex f = true |- _ =>
        destruct (HexMore.exec_six a b c d e f Ha Hb Hc Hd He Hf) as [Hplain Hhash]
    end.
    unfold Mousygons.hexToRgb. rewrite Hplain, Hhash, !HexMore.parseInt16_pair.
    now split.
  - intro hex. unfold Mousygons.hexToRgb. rewrite HexMore.exec_upper.
    destruct (Hex.exec hex) as [[[g1 g2] g3] |] eqn:Hexec; [| reflexivity].
    destruct (HexMore.exec_shape _ Hexec)
      as (a & b & c & d & e & f & _ & Hr & Ha & Hb & Hc & Hd & He & Hf).
    injection Hr as -> -> ->. cbn [Aux.upper_string].
    rewrite !HexMore.parseInt16_pair. unfold Aux.byte_of.
    now rewrite !HexMore.digit_upper.
Qed.

(** The theorem at the colour of the points, "#00bf9b", and at the digits
    of "00BF9B". *)
Lemma hexToRgb_components_witness :
  (exists a b c d e f : ascii,
      ("#00bf9b"%string = Aux.six a b c d e f
       \/ "#00bf9b"%string = String "#"%char (Aux.six a b c d e f))
      /\ {| Mousygons.r := 0%float; Mousygons.g := 191%float; Mousygons.b := 155%float |}
         = {| Mousygons.r := of_Z (Aux.byte_of a b);
              Mousygons.g := of_Z (Aux.byte_of c d);
              Mousygons.b := of_Z (Aux.byte_of e f) |}
      /\ (0 <= Aux.byte_of a b <= 255)%Z
      /\ (0 <= Aux.byte_of c d <= 255)%Z
      /\ (0 <= Aux.byte_of e f <= 255)%Z)
  /\ Mousygons.hexToRgb (Aux.six "0" "0" "B" "F" "9" "B")%char
     = Some {| Mousygons.r := 0%float; Mousygons.g := 191%float; Mousygons.b := 155%float |}.
Proof.
  pose proof (@hexToRgb_components float binary64) as [Hsome [Hsix _]]. split.
  - apply Hsome. vm_compute. reflexivity.
  - destruct (Hsix "0" "0" "B" "F" "9" "B")%char as [Hplain _].
    + unfold Spec.hex_digit. repeat (apply Forall_cons; [simpl; tauto |]). apply Forall_nil.
    + rewrite Hplain. vm_compute. reflexivity.
Defined.

(** ** What Fill takes from the random source *)

Module FillMore.
Section WithNumber.
Context {num : Type} {N : Number num}.



End WithNumber.
End FillMore.


